(** * QueryBuilder: the ServiceNOW encoded-query builder of [src/QueryBuilder.js]

    A shallow embedding of the [QueryBuilder] class.  The builder object is a
    record; its methods are computations in a small state-and-exception monad,
    so that a method that throws still hands back the object it was called on
    and "nothing was pushed before the throw" is something to prove.  The
    JavaScript values a caller can pass as operands are an inductive type with
    [typeof], [Array.isArray], [instanceof] and the string conversion written
    out.  The [Date] and [moment] objects are modelled by the instant they
    hold (and, for a moment, the UTC offset it displays in). *)

From Stdlib Require Import ZArith List String Ascii Bool Lia.
Import ListNotations.

Local Open Scope string_scope.
Local Open Scope Z_scope.

(** ** Text helpers of the runtime *)

Module Text.

Definition digit (n : Z) : ascii := ascii_of_nat (48 + Z.to_nat n).

Definition pad2 (n : Z) : string :=
  String (digit (n / 10 mod 10)) (String (digit (n mod 10)) "").

(** Decimal digits of a non-negative integer, most significant first. *)
Fixpoint digits_fuel (fuel : nat) (n : Z) (acc : string) : string :=
  match fuel with
  | O => acc
  | S fuel' =>
      let acc' := String (digit (n mod 10)) acc in
      if n / 10 =? 0 then acc' else digits_fuel fuel' (n / 10) acc'
  end.

Definition decimal (n : Z) : string :=
  digits_fuel (S (Z.to_nat (Z.log2 n))) n "".

(** [zeroFill] of moment and [ToZeroPaddedDecimalString] of ECMAScript:
    the digits of [n >= 0], padded on the left with zeros to [width]. *)
Fixpoint zeros (k : nat) : string :=
  match k with O => "" | S k' => String "0" (zeros k') end.

Definition zero_pad (width : nat) (n : Z) : string :=
  let ds := decimal n in
  zeros (width - String.length ds) ++ ds.

Definition signed_pad (width : nat) (n : Z) : string :=
  (if n <? 0 then "-" else "") ++ zero_pad width (Z.abs n).

(** [Array.prototype.join] on an array whose elements are strings already. *)
Fixpoint join (sep : string) (l : list string) : string :=
  match l with
  | [] => ""
  | [x] => x
  | x :: rest => x ++ sep ++ join sep rest
  end.

(** [Array.prototype.includes] on an array of strings. *)
Definition includes (l : list string) (s : string) : bool :=
  existsb (String.eqb s) l.

(** [String.prototype.substr (start, length)]. *)
Definition substr (start len : nat) (s : string) : string :=
  String.substring start len s.

(** Does [needle] occur in [hay]?  Used to say that a message mentions a
    type name. *)
Fixpoint mentions (needle hay : string) : bool :=
  if String.prefix needle hay then true
  else match hay with
       | EmptyString => false
       | String _ rest => mentions needle rest
       end.

End Text.

(** ** Calendar arithmetic of the runtime

    ECMAScript time values are milliseconds since 1970-01-01T00:00:00Z in the
    proleptic Gregorian calendar.  [civil_from_days] and [days_from_civil] are
    the day-number conversions behind [YearFromTime], [MonthFromTime],
    [DateFromTime] and [MakeDay]. *)

Module Calendar.

Definition msPerDay : Z := 86400000.

Record civil := mkCivil
  { year : Z; month : Z (* 1..12 *); day : Z (* 1..31 *);
    hours : Z; minutes : Z; seconds : Z; weekday : Z (* 0 = Sunday *) }.

Definition civil_from_days (days : Z) : Z * Z * Z :=
  let z := days + 719468 in
  let era := z / 146097 in
  let doe := z - era * 146097 in
  let yoe := (doe - doe / 1460 + doe / 36524 - doe / 146096) / 365 in
  let y := yoe + era * 400 in
  let doy := doe - (365 * yoe + yoe / 4 - yoe / 100) in
  let mp := (5 * doy + 2) / 153 in
  let d := doy - (153 * mp + 2) / 5 + 1 in
  let m := if mp <? 10 then mp + 3 else mp - 9 in
  (if m <=? 2 then y + 1 else y, m, d).

Definition days_from_civil (y m d : Z) : Z :=
  let y' := if m <=? 2 then y - 1 else y in
  let era := y' / 400 in
  let yoe := y' - era * 400 in
  let doy := (153 * (if 2 <? m then m - 3 else m + 9) + 2) / 5 + d - 1 in
  let doe := yoe * 365 + yoe / 4 - yoe / 100 + doy in
  era * 146097 + doe - 719468.

(** The calendar fields of a time value read at a UTC offset of
    [offset_ms] milliseconds. *)
Definition fields_at (offset_ms : Z) (t : Z) : civil :=
  let local := t + offset_ms in
  let days := local / msPerDay in
  let in_day := local mod msPerDay in
  let '(y, m, d) := civil_from_days days in
  {| year := y; month := m; day := d;
     hours := in_day / 3600000;
     minutes := in_day / 60000 mod 60;
     seconds := in_day / 1000 mod 60;
     weekday := (days + 4) mod 7 |}.

(** [MakeDate (MakeDay (y, m, d), MakeTime (h, mi, s, 0))], in milliseconds. *)
Definition make_time (y m d h mi s : Z) : Z :=
  days_from_civil y m d * msPerDay + h * 3600000 + mi * 60000 + s * 1000.

Definition day_names : list string :=
  ["Sun"; "Mon"; "Tue"; "Wed"; "Thu"; "Fri"; "Sat"].

Definition month_names : list string :=
  ["Jan"; "Feb"; "Mar"; "Apr"; "May"; "Jun";
   "Jul"; "Aug"; "Sep"; "Oct"; "Nov"; "Dec"].

Definition day_name (w : Z) : string := nth (Z.to_nat w) day_names "".
Definition month_name (m : Z) : string := nth (Z.to_nat (m - 1)) month_names "".

(** The month number of a three-letter English month name, if it is one. *)
Fixpoint index_of (s : string) (l : list string) (i : Z) : option Z :=
  match l with
  | [] => None
  | x :: rest => if String.eqb s x then Some i else index_of s rest (i + 1)
  end.

Definition month_of_name (s : string) : option Z := index_of s month_names 1.

(** [+hhmm] / [-hhmm] for an offset given in minutes. *)
Definition offset_hhmm (offset_min : Z) : string :=
  (if offset_min <? 0 then "-" else "+")
    ++ Text.pad2 (Z.abs offset_min / 60) ++ Text.pad2 (Z.abs offset_min mod 60).

End Calendar.

(** ** The JavaScript runtime, as far as the builder touches it *)

Module Js.

(** What the host provides and the builder does not look into: the number
    type with its string conversion ([Number::toString]), and the local time
    zone.  The zone is given by two readings of its offset from UTC, in
    minutes, east positive: [offset_at t] is the offset in force at the
    instant [t], and [offset_of_local t] is the offset the host takes the
    local wall clock [t] to be at, which for a wall clock that a change of
    offset skips or repeats is the offset before the change.  An offset is
    less than a day. *)
Class Runtime := mkRuntime
  { number : Type;
    NumberToString : number -> string;
    offset_at : Z -> Z;
    offset_of_local : Z -> Z;
    host_zone : string;
    offset_of_local_bound : forall t, -1440 < offset_of_local t < 1440 }.

(** [TimeClip]: a time value further than 8.64e15 ms from the epoch is
    NaN. *)
Definition TimeClip (t : Z) : option Z :=
  if Z.abs t <=? 8640000000000000 then Some t else None.

(** The year of a date text without a zone, as the engine's parser for
    such texts takes it: 0 to 49 stand for 2000 to 2049 and 50 to 99 for
    1950 to 1999. *)
Definition legacy_year (y : Z) : Z :=
  if y <? 50 then y + 2000 else if y <? 100 then y + 1900 else y.

(** A [Date] object: its time value, [None] for NaN ("Invalid Date"). *)
Inductive Date := mkDate (time_value : option Z).

(** A [moment] object: the instant it wraps ([None] when invalid) and the
    UTC offset in minutes it displays in: [0] after [.utc()], the local
    offset for a moment made by [moment(...)], any value after
    [.utcOffset(n)] or [moment.parseZone]. *)
Record Moment := mkMoment { m_time : option Z; m_offset : Z }.

(** One step of moment's formatter: the text of the token the pattern
    starts with, and how many characters of pattern it used.  The tokens
    are those of the two patterns in use here, [YYYY-MM-DD hh:mm:ss] and the
    one of [toString]; any other character stands for itself. *)
Definition format_token (c : Calendar.civil) (offset : Z) (pattern : string)
  : string * nat :=
  let starts p := String.prefix p pattern in
  if starts "YYYY" then (Text.signed_pad 4 (Calendar.year c), 4%nat)
  else if starts "MMM" then (Calendar.month_name (Calendar.month c), 3%nat)
  else if starts "MM" then (Text.pad2 (Calendar.month c), 2%nat)
  else if starts "DD" then (Text.pad2 (Calendar.day c), 2%nat)
  else if starts "ddd" then (Calendar.day_name (Calendar.weekday c), 3%nat)
  else if starts "HH" then (Text.pad2 (Calendar.hours c), 2%nat)
  else if starts "hh" then
    (let h := Calendar.hours c mod 12 in
     Text.pad2 (if h =? 0 then 12 else h), 2%nat)
  else if starts "mm" then (Text.pad2 (Calendar.minutes c), 2%nat)
  else if starts "ss" then (Text.pad2 (Calendar.seconds c), 2%nat)
  else if starts "ZZ" then (Calendar.offset_hhmm offset, 2%nat)
  else if starts "[GMT]" then ("GMT", 5%nat)
  else (Text.substr 0 1 pattern, 1%nat).

Fixpoint format_fuel (fuel : nat) (c : Calendar.civil) (offset : Z)
         (pattern : string) : string :=
  match fuel with
  | O => ""
  | S fuel' =>
      match pattern with
      | EmptyString => ""
      | _ =>
          let '(text, used) := format_token c offset pattern in
          text ++ format_fuel fuel' c offset
                    (Text.substr used (String.length pattern - used) pattern)
      end
  end.

(** [moment.prototype.format (pattern)]: the wall clock of the instant at
    the moment's own offset.  [hh] is the 12-hour hour, [HH] the 24-hour
    one. *)
Definition Moment_format (m : Moment) (pattern : string) : string :=
  match m_time m with
  | None => "Invalid date"
  | Some t =>
      format_fuel (String.length pattern)
                  (Calendar.fields_at (m_offset m * 60000) t) (m_offset m) pattern
  end.

(** [moment.prototype.utc ()]. *)
Definition Moment_utc (m : Moment) : Moment :=
  {| m_time := m_time m; m_offset := 0 |}.

(** [moment.prototype.toString ()]. *)
Definition Moment_toString (m : Moment) : string :=
  Moment_format m "ddd MMM DD YYYY HH:mm:ss [GMT]ZZ".

(** [Date.prototype.toUTCString ()]: [Tue, 03 Nov 2026 12:34:56 GMT]. *)
Definition Date_toUTCString (d : Date) : string :=
  match d with
  | mkDate None => "Invalid Date"
  | mkDate (Some t) =>
      let c := Calendar.fields_at 0 t in
      Calendar.day_name (Calendar.weekday c) ++ ", "
        ++ Text.pad2 (Calendar.day c) ++ " "
        ++ Calendar.month_name (Calendar.month c) ++ " "
        ++ Text.signed_pad 4 (Calendar.year c) ++ " "
        ++ Text.pad2 (Calendar.hours c) ++ ":"
        ++ Text.pad2 (Calendar.minutes c) ++ ":"
        ++ Text.pad2 (Calendar.seconds c) ++ " GMT"
  end.

(** Reading a run of decimal digits. *)
Fixpoint number_of_digits (s : string) (acc : Z) : option Z :=
  match s with
  | EmptyString => Some acc
  | String ch rest =>
      let n := Z.of_nat (nat_of_ascii ch) - 48 in
      if (0 <=? n) && (n <=? 9) then number_of_digits rest (10 * acc + n)
      else None
  end.

Definition read_number (start len : nat) (s : string) : option Z :=
  number_of_digits (Text.substr start len s) 0.

Section WithRuntime.
Context {rt : Runtime}.

(** [new Date (text)] for the texts this program gives it: the first 25
    characters of a [toUTCString], that is [Www, DD Mon YYYY hh:mm:ss] and,
    for a year of five or six digits, the same with the seconds cut to their
    first digit or cut off (then taken as 0).  The engine reads such a text,
    which names no zone, as local time, with the year taken as
    [legacy_year] has it.  A text with a sign before the year, the text of
    an invalid date and any other text are taken as unparseable. *)
Definition Date_parse (text : string) : Date :=
  let sep i c := String.eqb (Text.substr i 1 text) c in
  let w := if sep 16%nat " " then 4%nat
           else if sep 17%nat " " then 5%nat else 6%nat in
  if Nat.eqb (String.length text) 25
     && sep 3%nat "," && sep 4%nat " " && sep 7%nat " " && sep 11%nat " "
     && sep (12 + w)%nat " " && sep (15 + w)%nat ":" && sep (18 + w)%nat ":"
  then
    match read_number 5 2 text, Calendar.month_of_name (Text.substr 8 3 text),
          read_number 12 w text, read_number (13 + w) 2 text,
          read_number (16 + w) 2 text, read_number (19 + w) (6 - w) text with
    | Some d, Some mo, Some y, Some h, Some mi, Some s =>
        if (1 <=? d) && (d <=? 31) && (h <=? 23) && (mi <=? 59) && (s <=? 59)
        then
          let local := Calendar.make_time (legacy_year y) mo d h mi s in
          mkDate (TimeClip (local - offset_of_local local * 60000))
        else mkDate None
    | _, _, _, _, _, _ => mkDate None
    end
  else mkDate None.

(** [moment (date)]: a moment in local mode on the date's instant, which
    displays at the offset in force at that instant. *)
Definition moment (d : Date) : Moment :=
  match d with
  | mkDate (Some t) => {| m_time := Some t; m_offset := offset_at t |}
  | mkDate None => {| m_time := None; m_offset := 0 |}
  end.

(** [Date.prototype.toString ()]. *)
Definition Date_toString (d : Date) : string :=
  match d with
  | mkDate None => "Invalid Date"
  | mkDate (Some _) =>
      Moment_format (moment d) "ddd MMM DD YYYY HH:mm:ss [GMT]ZZ"
        ++ " (" ++ host_zone ++ ")"
  end.

#[local] Set Warnings "-register-all".

(** The values a caller can hand to a builder method.  An object that is
    neither an array, a [Date] nor a moment is kept as the text its own
    [toString ()] gives ([[object Object]] for a plain object); a
    function likewise.  Symbols and objects whose string conversion
    throws are left out. *)
Inductive value :=
| VUndefined
| VNull
| VBoolean (b : bool)
| VNumber (n : number)
| VString (s : string)
| VArray (elems : list value)
| VDate (d : Date)
| VMoment (m : Moment)
| VObject (text : string)
| VFunction (text : string).

Definition typeof (v : value) : string :=
  match v with
  | VUndefined => "undefined"
  | VBoolean _ => "boolean"
  | VNumber _ => "number"
  | VString _ => "string"
  | VFunction _ => "function"
  | VNull | VArray _ | VDate _ | VMoment _ | VObject _ => "object"
  end.

(** [typeof x] where [x] is a name with no binding in scope: no
    ReferenceError, the answer is ["undefined"]. *)
Definition typeof_unbound : string := "undefined".

Definition Array_isArray (v : value) : bool :=
  match v with VArray _ => true | _ => false end.

Definition instanceof_Date (v : value) : bool :=
  match v with VDate _ => true | _ => false end.

Definition instanceof_moment (v : value) : bool :=
  match v with VMoment _ => true | _ => false end.

(** The string conversion of [+] with a string and of template literals.
    An array converts through [join (",")], where [undefined] and [null]
    elements give the empty text. *)
Fixpoint ToString (v : value) : string :=
  match v with
  | VUndefined => "undefined"
  | VNull => "null"
  | VBoolean b => if b then "true" else "false"
  | VNumber n => NumberToString n
  | VString s => s
  | VArray elems =>
      Text.join ","
        (map (fun e => match e with
                       | VUndefined | VNull => ""
                       | _ => ToString e
                       end) elems)
  | VDate d => Date_toString d
  | VMoment m => Moment_toString m
  | VObject text => text
  | VFunction text => text
  end.

(** [Array.prototype.join (sep)]. *)
Definition Array_join (elems : list value) (sep : string) : string :=
  Text.join sep
    (map (fun e => match e with
                   | VUndefined | VNull => ""
                   | _ => ToString e
                   end) elems).

End WithRuntime.

End Js.

(** ** The builder *)

Module QueryBuilder.
Import Js.

(** The three exception classes of [./Exceptions], each with its message. *)
Inductive exception :=
| QueryMissingFieldException (message : string)
| QueryTypeException (message : string)
| QueryEmptyException (message : string).

(** An instance: [this.query] and [this.currentField]. *)
Record t := mk { query : list string; currentField : string }.

(** [constructor ()]. *)
Definition constructor : t := {| query := []; currentField := "" |}.

(** A method body either completes with a value or throws; in both cases
    the object it ran on is handed back as it then stands. *)
Inductive completion (A : Type) :=
| Return (a : A)
| Throw (e : exception).
Arguments Return {A} a.
Arguments Throw {A} e.

Definition M (A : Type) : Type := t -> completion A * t.

Definition ret {A} (a : A) : M A := fun this => (Return a, this).

Definition throw {A} (e : exception) : M A := fun this => (Throw e, this).

Definition bind {A B} (m : M A) (k : A -> M B) : M B :=
  fun this =>
    match m this with
    | (Return a, this') => k a this'
    | (Throw e, this') => (Throw e, this')
    end.

Notation "x <- m ;; k" := (bind m (fun x => k))
  (at level 61, m at next level, right associativity).
Notation "m ;; k" := (bind m (fun _ => k))
  (at level 61, right associativity).

Definition get_this : M t := fun this => (Return this, this).

(** [if (cond) { throw e }]. *)
Definition throw_if (cond : bool) (e : exception) : M unit :=
  if cond then throw e else ret tt.

(** [this.query.push (token)]. *)
Definition push (token : string) : M unit :=
  fun this =>
    (Return tt, {| query := query this ++ [token];
                   currentField := currentField this |}).

(** Truthiness of a string: every string but the empty one. *)
Definition truthy (s : string) : bool := negb (String.eqb s "").

Section WithRuntime.
Context {rt : Runtime}.

Definition field (fieldName : string) : M unit :=
  fun this => (Return tt, {| query := query this; currentField := fieldName |}).

Definition orderDescending : M unit :=
  this <- get_this ;; push ("ORDERBYDESC" ++ currentField this).

Definition orderAscending : M unit :=
  this <- get_this ;; push ("ORDERBY" ++ currentField this).

Definition _addLogicalOperator (operator : string) : M unit :=
  push operator.

Definition _addCondition (operator : string) (operand : value)
           (types : list string) : M unit :=
  this <- get_this ;;
  throw_if (negb (truthy (currentField this)))
           (QueryMissingFieldException "Conditions requires a field.") ;;
  throw_if (negb (Text.includes types (typeof operand)))
           (let errorMessage :=
              if (1 <? List.length types)%nat
              then "Invalid type passed. Expected one of: " ++ Text.join "," types
              else "Invalid type passed. Expected: " ++ Text.join "," types in
            QueryTypeException errorMessage) ;;
  push (currentField this ++ operator ++ ToString operand).

Definition startsWith (startsWithStr : value) : M unit :=
  _addCondition "STARTSWITH" startsWithStr ["string"].

Definition endsWith (endsWithStr : value) : M unit :=
  _addCondition "ENDSWITH" endsWithStr ["string"].

Definition contains (containesStr : value) : M unit :=
  _addCondition "LIKE" containesStr ["string"].

Definition doesNotContain (notContainesStr : value) : M unit :=
  _addCondition "NOTLIKE" notContainesStr ["string"].

Definition isEmpty : M unit :=
  _addCondition "ISEMPTY" (VString "") ["string"; "number"].

Definition isNotEmpty : M unit :=
  _addCondition "ISNOTEMPTY" (VString "") ["string"; "number"].

Definition equals (data : value) : M unit :=
  if String.eqb (typeof data) "string" || String.eqb (typeof data) "number"
  then _addCondition "=" data ["string"; "number"]
  else if Array_isArray data
  then _addCondition "IN" data ["object"]
  else throw (QueryTypeException
                ("Expected string or list type, found: " ++ typeof data)).

Definition notEquals (data : value) : M unit :=
  if String.eqb (typeof data) "string" || String.eqb (typeof data) "number"
  then _addCondition "!=" data ["string"; "number"]
  else if Array_isArray data
  then _addCondition "NOT IN" data ["object"]
  else throw (QueryTypeException
                ("Expected string or list type, found: " ++ typeof data)).

Definition _formatDateTime (momentDate : Moment) : string :=
  Moment_format momentDate "YYYY-MM-DD hh:mm:ss".

(** The operands that pass [x instanceof Date || x instanceof moment]. *)
Inductive datelike :=
| IsDate (d : Date)
| IsMoment (m : Moment).

Definition as_datelike (v : value) : option datelike :=
  match v with
  | VDate d => Some (IsDate d)
  | VMoment m => Some (IsMoment m)
  | _ => None
  end.

Definition _getDateTimeInUTC (dateTime : datelike) : string :=
  match dateTime with
  | IsMoment m => _formatDateTime m
  | IsDate d =>
      _formatDateTime
        (moment (Date_parse (Text.substr 0 25 (Date_toUTCString d))))
  end.

Definition _addComparisonCondition (valueToCompare : value)
           (operator : string) : M unit :=
  valueToCompare' <-
    match as_datelike valueToCompare with
    | Some dateTime => ret (VString (_getDateTimeInUTC dateTime))
    | None =>
        throw_if (negb (String.eqb (typeof valueToCompare) "number"
                        || String.eqb (typeof valueToCompare) "string"))
                 (QueryTypeException
                    ("Expected string/Date/number type, found: "
                       ++ typeof valueToCompare)) ;;
        ret valueToCompare
    end ;;
  _addCondition operator valueToCompare' ["number"; "string"].

Definition greaterThan (greaterThanValue : value) : M unit :=
  _addComparisonCondition greaterThanValue ">".

Definition greaterThanOrIs (greaterThanOrIsValue : value) : M unit :=
  _addComparisonCondition greaterThanOrIsValue ">=".

Definition lessThan (lessThanValue : value) : M unit :=
  _addComparisonCondition lessThanValue "<".

Definition lessThanOrIs (lessThanOrIsValue : value) : M unit :=
  _addComparisonCondition lessThanOrIsValue "<=".

(** The [else] branch says [typeof data], and [between] has no [data]:
    see [typeof_unbound]. *)
Definition between (startValue endValue : value) : M unit :=
  betweenOperand <-
    (if (String.eqb (typeof startValue) "number"
         && String.eqb (typeof endValue) "number")
        || (String.eqb (typeof startValue) "string"
            && String.eqb (typeof endValue) "string")
     then ret (ToString startValue ++ "@" ++ ToString endValue)
     else match as_datelike startValue, as_datelike endValue with
          | Some startDate, Some endDate =>
              ret (_getDateTimeInUTC startDate ++ "@"
                     ++ _getDateTimeInUTC endDate)
          | _, _ =>
              throw (QueryTypeException
                       ("Expected string/date/number type, found: "
                          ++ typeof_unbound))
          end) ;;
  _addCondition "BETWEEN" (VString betweenOperand) ["string"].

Definition isAnything : M unit :=
  _addCondition "ANYTHING" (VString "") ["string"; "number"].

Definition isOneOf (data : value) : M unit :=
  match data with
  | VArray elems => _addCondition "IN" (VString (Array_join elems ",")) ["string"]
  | _ => throw (QueryTypeException
                  ("Expected array type, found: " ++ typeof data))
  end.

Definition isEmptyString : M unit :=
  _addCondition "EMPTYSTRING" (VString "") ["string"].

Definition and_ : M unit := _addLogicalOperator "^".

Definition or_ : M unit := _addLogicalOperator "^OR".

Definition NQ : M unit := _addLogicalOperator "^NQ".

Definition build : M string :=
  this <- get_this ;;
  throw_if (Nat.eqb (List.length (query this)) 0)
           (QueryEmptyException "Atleast one condition is required in query.") ;;
  ret (Text.join "" (query this)).

(** *** Calls

    The chainable methods as data, so that statements can range over
    "every method" and over call histories. *)
Inductive method :=
| Field (fieldName : string)
| OrderDescending
| OrderAscending
| StartsWith (operand : value)
| EndsWith (operand : value)
| Contains (operand : value)
| DoesNotContain (operand : value)
| IsEmpty
| IsNotEmpty
| Equals (data : value)
| NotEquals (data : value)
| GreaterThan (operand : value)
| GreaterThanOrIs (operand : value)
| LessThan (operand : value)
| LessThanOrIs (operand : value)
| Between (startValue endValue : value)
| IsAnything
| IsOneOf (data : value)
| IsEmptyString
| And
| Or
| Nq.

Definition call (m : method) : M unit :=
  match m with
  | Field fieldName => field fieldName
  | OrderDescending => orderDescending
  | OrderAscending => orderAscending
  | StartsWith v => startsWith v
  | EndsWith v => endsWith v
  | Contains v => contains v
  | DoesNotContain v => doesNotContain v
  | IsEmpty => isEmpty
  | IsNotEmpty => isNotEmpty
  | Equals v => equals v
  | NotEquals v => notEquals v
  | GreaterThan v => greaterThan v
  | GreaterThanOrIs v => greaterThanOrIs v
  | LessThan v => lessThan v
  | LessThanOrIs v => lessThanOrIs v
  | Between a b => between a b
  | IsAnything => isAnything
  | IsOneOf v => isOneOf v
  | IsEmptyString => isEmptyString
  | And => and_
  | Or => or_
  | Nq => NQ
  end.

(** The sixteen condition methods: those that go through
    [_addCondition]. *)
Definition is_condition (m : method) : bool :=
  match m with
  | Field _ | OrderDescending | OrderAscending | And | Or | Nq => false
  | _ => true
  end.

(** A fluent chain [b.m1 (..).m2 (..)...]: the first throw ends it. *)
Fixpoint chain (ms : list method) : M unit :=
  match ms with
  | [] => ret tt
  | m :: rest => call m ;; chain rest
  end.

(** A history of calls on one object by a caller that catches what is
    thrown and goes on: the object after all of them. *)
Definition after (ms : list method) (this : t) : t :=
  fold_left (fun b m => snd (call m b)) ms this.

End WithRuntime.
End QueryBuilder.

(** ** Notions used in the statements *)

Module Statements.
Import Js QueryBuilder.

(** A runtime to evaluate examples in: numbers are the integers, printed in
    decimal as [Number::toString] prints an integer-valued number below
    10^21; the host sits two hours east of UTC. *)
Definition example_runtime : Runtime :=
  {| number := Z;
     NumberToString := Text.signed_pad 1;
     offset_at := fun _ => 120;
     offset_of_local := fun _ => 120;
     host_zone := "Eastern European Standard Time";
     offset_of_local_bound := fun _ => conj eq_refl eq_refl |}.

(** A host on New York time in 2020: five hours west of UTC, four from
    2020-03-08T07:00:00Z to 2020-11-01T06:00:00Z.  The local wall clocks
    from 02:00 to 03:00 on 8 March do not exist and those from 01:00 to
    02:00 on 1 November come twice; both are read at the offset before the
    change. *)
Definition new_york_2020 : Runtime :=
  {| number := Z;
     NumberToString := Text.signed_pad 1;
     offset_at := fun t =>
       if (1583650800000 <=? t) && (t <? 1604210400000) then -240 else -300;
     offset_of_local := fun t =>
       if (1583636400000 <=? t) && (t <? 1604196000000) then -240 else -300;
     host_zone := "Eastern Standard Time";
     offset_of_local_bound := fun t =>
       match (1583636400000 <=? t) && (t <? 1604196000000) as b
             return -1440 < (if b then -240 else -300) < 1440 with
       | true => conj eq_refl eq_refl
       | false => conj eq_refl eq_refl
       end |}.

(** The UTC wall clock of an instant, to the second, as a time value: what
    the text handed to [Date_parse] says. *)
Definition wall_clock (t : Z) : Z :=
  let c := Calendar.fields_at 0 t in
  Calendar.make_time (Calendar.year c) (Calendar.month c) (Calendar.day c)
                     (Calendar.hours c) (Calendar.minutes c) (Calendar.seconds c).

(** [P] holds of the [n] integers from [z] on.  Used to settle facts about
    the finitely many two- and four-digit fields and names of the
    date text by evaluation. *)
Fixpoint all_from (n : nat) (z : Z) (P : Z -> bool) : bool :=
  match n with
  | O => true
  | S k => if P z then all_from k (z + 1) P else false
  end.

(** [Calendar.civil_from_days] within one 400-year era: year of era, month
    and day of the day of era [doe]. *)
Definition civil_of_doe (doe : Z) : Z * Z * Z :=
  let yoe := (doe - doe / 1460 + doe / 36524 - doe / 146096) / 365 in
  let doy := doe - (365 * yoe + yoe / 4 - yoe / 100) in
  let mp := (5 * doy + 2) / 153 in
  let d := doy - (153 * mp + 2) / 5 + 1 in
  let m := if mp <? 10 then mp + 3 else mp - 9 in
  (yoe, m, d).

(** [Calendar.days_from_civil] within one era. *)
Definition doe_of_civil (yoe m d : Z) : Z :=
  let doy := (153 * (if 2 <? m then m - 3 else m + 9) + 2) / 5 + d - 1 in
  yoe * 365 + yoe / 4 - yoe / 100 + doy.

Definition pad2_round_trip (n : Z) : bool :=
  match number_of_digits (Text.pad2 n) 0 with
  | Some v => v =? n
  | None => false
  end.

Definition year_round_trip (y : Z) : bool :=
  match Text.zero_pad 4 y with
  | String _ (String _ (String _ (String _ EmptyString))) =>
      match number_of_digits (Text.zero_pad 4 y) 0 with
      | Some v => v =? y
      | None => false
      end
  | _ => false
  end.

Definition month_round_trip (m : Z) : bool :=
  match Calendar.month_name m with
  | String _ (String _ (String _ EmptyString)) =>
      match Calendar.month_of_name (Calendar.month_name m) with
      | Some v => v =? m
      | None => false
      end
  | _ => false
  end.

Definition day_name_three (w : Z) : bool :=
  match Calendar.day_name w with
  | String _ (String _ (String _ EmptyString)) => true
  | _ => false
  end.

Section WithRuntime.
Context {rt : Runtime}.

(** The object after [this.query.push (token)]. *)
Definition pushed (this : t) (token : string) : t :=
  {| query := query this ++ [token]; currentField := currentField this |}.

(** The tokens a call appended: what [query] holds beyond its old
    length. *)
Definition appended_by (m : method) (this : t) : list string :=
  skipn (List.length (query this)) (query (snd (call m this))).

(** The tokens appended over a history of calls, in call order. *)
Fixpoint appended (ms : list method) (this : t) : list string :=
  match ms with
  | [] => []
  | m :: rest => appended_by m this ++ appended rest (snd (call m this))
  end.

Definition is_field (m : method) : bool :=
  match m with Field _ => true | _ => false end.

(** [l1] is a prefix of [l2]. *)
Definition prefix_of (l1 l2 : list string) : Prop :=
  exists rest, l2 = (l1 ++ rest)%list.

Definition is_scalar (v : value) : bool :=
  String.eqb (typeof v) "string" || String.eqb (typeof v) "number".

(** The pairs [between] takes: two numbers, two strings, or two
    date-like values, each a [Date] or a moment. *)
Definition between_pair_supported (startValue endValue : value) : bool :=
  (String.eqb (typeof startValue) "number"
   && String.eqb (typeof endValue) "number")
  || (String.eqb (typeof startValue) "string"
      && String.eqb (typeof endValue) "string")
  || ((instanceof_Date startValue || instanceof_moment startValue)
      && (instanceof_Date endValue || instanceof_moment endValue)).

(** The operand [between] makes of a pair it takes. *)
Definition between_operand (startValue endValue : value) : option string :=
  if (String.eqb (typeof startValue) "number"
      && String.eqb (typeof endValue) "number")
     || (String.eqb (typeof startValue) "string"
         && String.eqb (typeof endValue) "string")
  then Some (ToString startValue ++ "@" ++ ToString endValue)
  else match as_datelike startValue, as_datelike endValue with
       | Some startDate, Some endDate =>
           Some (_getDateTimeInUTC startDate ++ "@"
                   ++ _getDateTimeInUTC endDate)
       | _, _ => None
       end.

(** Does the call get past the type dispatch the method does itself,
    before it hands over to [_addCondition]?  Only [equals],
    [notEquals], [isOneOf], the four comparisons and [between] have
    one. *)
Definition passes_own_dispatch (m : method) : bool :=
  match m with
  | Equals v | NotEquals v => is_scalar v || Array_isArray v
  | IsOneOf v => Array_isArray v
  | GreaterThan v | GreaterThanOrIs v | LessThan v | LessThanOrIs v =>
      instanceof_Date v || instanceof_moment v || is_scalar v
  | Between a b => between_pair_supported a b
  | _ => true
  end.

Definition is_between (m : method) : bool :=
  match m with Between _ _ => true | _ => false end.

(** The message of the type exception of each condition method other
    than [between], when it throws one. *)
Definition type_error_message (m : method) : option string :=
  match m with
  | StartsWith _ | EndsWith _ | Contains _ | DoesNotContain _ =>
      Some "Invalid type passed. Expected: string"
  | Equals v | NotEquals v =>
      Some ("Expected string or list type, found: " ++ typeof v)
  | IsOneOf v => Some ("Expected array type, found: " ++ typeof v)
  | GreaterThan v | GreaterThanOrIs v | LessThan v | LessThanOrIs v =>
      Some ("Expected string/Date/number type, found: " ++ typeof v)
  | _ => None
  end.

(** The operand of the four methods that leave all type checking to
    [_addCondition]. *)
Definition validated_operand (m : method) : option value :=
  match m with
  | StartsWith v | EndsWith v | Contains v | DoesNotContain v => Some v
  | _ => None
  end.

(** The datetime normalization in the words of the specification:
    convert the date-like value to UTC, then format it. *)
Definition spec_datetime_in_UTC (dateTime : datelike) : string :=
  let wrapped := match dateTime with
                 | IsDate d => moment d
                 | IsMoment m => m
                 end in
  Moment_format (Moment_utc wrapped) "YYYY-MM-DD hh:mm:ss".

(** The host reads the UTC wall clock of [t] as a local time without
    displacing it: the offset it reads that wall clock at is the one in
    force at the instant it then names.  This fails only for a wall clock
    that falls in an hour the host's zone skips. *)
Definition wall_clock_in_place (t : Z) : Prop :=
  let local := wall_clock t in
  offset_at (local - offset_of_local local * 60000) = offset_of_local local.

(** Did the call complete rather than throw? *)
Definition succeeded (m : method) (this : t) : bool :=
  match fst (call m this) with
  | Return _ => true
  | Throw _ => false
  end.

(** All the type tests a call meets on its way to the push: the dispatch of
    the method itself, and for the four methods that leave the test to
    [_addCondition] with [['string']], that the operand is a string. *)
Definition operand_accepted (m : method) : bool :=
  passes_own_dispatch m
  && match validated_operand m with
     | Some v => String.eqb (typeof v) "string"
     | None => true
     end.

(** How many tokens a history is expected to leave: one for each call that
    completes and is not [field]. *)
Fixpoint tokens_count (ms : list method) (this : t) : nat :=
  match ms with
  | [] => 0
  | m :: rest =>
      ((if succeeded m this && negb (is_field m) then 1 else 0)
       + tokens_count rest (snd (call m this)))%nat
  end.

(** The four comparison methods with their operator and operand. *)
Definition comparison_of (m : method) : option (string * value) :=
  match m with
  | GreaterThan v => Some (">", v)
  | GreaterThanOrIs v => Some (">=", v)
  | LessThan v => Some ("<", v)
  | LessThanOrIs v => Some ("<=", v)
  | _ => None
  end.

(** What one call does to the object, with what is known of the token it
    pushes. *)
Inductive step (m : method) (this : t) : completion unit * t -> Prop :=
| step_throw e : step m this (Throw e, this)
| step_condition rest :
    is_condition m = true -> currentField this <> "" -> rest <> "" ->
    step m this (Return tt, pushed this (currentField this ++ rest))
| step_marker token :
    is_condition m = false -> is_field m = false -> token <> "" ->
    step m this (Return tt, pushed this token)
| step_field name :
    m = Field name ->
    step m this (Return tt, {| query := query this; currentField := name |}).

(** [YYYY-MM-DD hh:mm:ss] written out on calendar fields, [hh] being the
    12-hour hour. *)
Definition datetime_text (c : Calendar.civil) : string :=
  Text.signed_pad 4 (Calendar.year c) ++ "-"
    ++ Text.pad2 (Calendar.month c) ++ "-"
    ++ Text.pad2 (Calendar.day c) ++ " "
    ++ Text.pad2 (let h := Calendar.hours c mod 12 in
                  if h =? 0 then 12 else h) ++ ":"
    ++ Text.pad2 (Calendar.minutes c) ++ ":"
    ++ Text.pad2 (Calendar.seconds c).

End WithRuntime.
End Statements.

(** ** Properties *)

Module Facts.
Import Js QueryBuilder Statements.

(** *** Round trips of the calendar and of the date text *)

Lemma all_from_spec (P : Z -> bool) (n : nat) : forall z,
  all_from n z P = true ->
  forall x, z <= x < z + Z.of_nat n -> P x = true.
Proof.
  induction n as [|k IH]; intros z A x R.
  - simpl in R. lia.
  - simpl in A. destruct (P z) eqn:Pz; [|discriminate A].
    destruct (Z.eq_dec x z) as [->|N]; [exact Pz|].
    apply (IH (z + 1) A). lia.
Qed.

Lemma year_of_era doe :
  0 <= doe < 146097 ->
  let yoe := (doe - doe / 1460 + doe / 36524 - doe / 146096) / 365 in
  0 <= yoe <= 399 /\ 0 <= doe - (365 * yoe + yoe / 4 - yoe / 100) <= 365.
Proof.
  intros R yoe. unfold yoe. Z.to_euclidean_division_equations; lia.
Qed.

Lemma month_of_year doy :
  0 <= doy <= 365 ->
  let mp := (5 * doy + 2) / 153 in
  0 <= mp <= 11 /\ 1 <= doy - (153 * mp + 2) / 5 + 1 <= 31.
Proof.
  intros R mp. unfold mp. Z.to_euclidean_division_equations; lia.
Qed.

Lemma civil_of_doe_round_trip doe :
  0 <= doe < 146097 ->
  let '(yoe, m, d) := civil_of_doe doe in
  0 <= yoe <= 399 /\ 1 <= m <= 12 /\ 1 <= d <= 31
  /\ doe_of_civil yoe m d = doe.
Proof.
  intros R. unfold civil_of_doe, doe_of_civil. cbv zeta.
  destruct (year_of_era doe R) as [Y D]. cbv zeta in Y, D.
  set (yoe := (doe - doe / 1460 + doe / 36524 - doe / 146096) / 365) in *.
  set (doy := doe - (365 * yoe + yoe / 4 - yoe / 100)) in *.
  destruct (month_of_year doy D) as [M Dd]. cbv zeta in M, Dd.
  set (mp := (5 * doy + 2) / 153) in *.
  set (d := doy - (153 * mp + 2) / 5 + 1) in *.
  assert (E : (if 2 <? (if mp <? 10 then mp + 3 else mp - 9)
               then (if mp <? 10 then mp + 3 else mp - 9) - 3
               else (if mp <? 10 then mp + 3 else mp - 9) + 9) = mp).
  { destruct (Z.ltb_spec mp 10).
    - destruct (Z.ltb_spec 2 (mp + 3)); lia.
    - destruct (Z.ltb_spec 2 (mp - 9)); lia. }
  rewrite E.
  split; [exact Y|]. split; [destruct (Z.ltb_spec mp 10); lia|].
  split; [exact Dd|]. unfold d, doy. lia.
Qed.

Lemma civil_from_days_era days :
  Calendar.civil_from_days days =
  let era := (days + 719468) / 146097 in
  let '(yoe, m, d) := civil_of_doe (days + 719468 - era * 146097) in
  (if m <=? 2 then yoe + era * 400 + 1 else yoe + era * 400, m, d).
Proof. reflexivity. Qed.

Lemma days_from_civil_era y m d :
  Calendar.days_from_civil y m d =
  let y' := if m <=? 2 then y - 1 else y in
  let era := y' / 400 in
  era * 146097 + doe_of_civil (y' - era * 400) m d - 719468.
Proof. reflexivity. Qed.

(** The day number of the calendar date of a day number is that day
    number, and the calendar date is a real one. *)
Lemma days_from_civil_from_days days :
  let '(y, m, d) := Calendar.civil_from_days days in
  Calendar.days_from_civil y m d = days /\ 1 <= m <= 12 /\ 1 <= d <= 31.
Proof.
  rewrite civil_from_days_era. cbv zeta.
  set (era := (days + 719468) / 146097).
  set (doe := days + 719468 - era * 146097).
  assert (R : 0 <= doe < 146097).
  { unfold doe, era.
    pose proof (Z.mod_pos_bound (days + 719468) 146097 ltac:(lia)) as B.
    rewrite Z.mod_eq in B by lia. lia. }
  pose proof (civil_of_doe_round_trip doe R) as T.
  destruct (civil_of_doe doe) as [[yoe m] d].
  destruct T as (Ty & Tm & Td & T).
  rewrite days_from_civil_era. cbv zeta.
  assert (Y : (if m <=? 2
               then (if m <=? 2 then yoe + era * 400 + 1 else yoe + era * 400) - 1
               else (if m <=? 2 then yoe + era * 400 + 1 else yoe + era * 400))
              = yoe + era * 400) by (destruct (m <=? 2); lia).
  rewrite Y.
  assert (E : (yoe + era * 400) / 400 = era).
  { rewrite Z.div_add by lia. rewrite Z.div_small by lia. lia. }
  rewrite E.
  replace (yoe + era * 400 - era * 400) with yoe by lia.
  split; [|lia]. unfold doe in *. lia.
Qed.

Lemma pad2_text n :
  0 <= n < 100 -> number_of_digits (Text.pad2 n) 0 = Some n.
Proof.
  intros R.
  assert (T : pad2_round_trip n = true).
  { apply (all_from_spec pad2_round_trip (Z.to_nat 100) 0).
    - vm_cast_no_check (eq_refl true).
    - rewrite Z2Nat.id; lia. }
  unfold pad2_round_trip in T.
  destruct (number_of_digits (Text.pad2 n) 0) as [v|]; [|discriminate T].
  apply Z.eqb_eq in T. congruence.
Qed.

Lemma year_text y :
  0 <= y <= 9999 ->
  exists a b c d,
    Text.signed_pad 4 y = String a (String b (String c (String d "")))
    /\ number_of_digits (String a (String b (String c (String d "")))) 0
       = Some y.
Proof.
  intros R.
  assert (T : year_round_trip y = true).
  { apply (all_from_spec year_round_trip (Z.to_nat 10000) 0).
    - vm_cast_no_check (eq_refl true).
    - rewrite Z2Nat.id; lia. }
  unfold year_round_trip in T.
  assert (S : Text.signed_pad 4 y = Text.zero_pad 4 y).
  { unfold Text.signed_pad. destruct (Z.ltb_spec y 0); [lia|].
    rewrite Z.abs_eq by lia. reflexivity. }
  rewrite S.
  destruct (Text.zero_pad 4 y) as [|a [|b [|c [|d [|? ?]]]]];
    try discriminate T.
  exists a, b, c, d. split; [reflexivity|].
  destruct (number_of_digits _ 0) as [v|]; [|discriminate T].
  apply Z.eqb_eq in T. congruence.
Qed.

Lemma month_text m :
  1 <= m <= 12 ->
  exists a b c,
    Calendar.month_name m = String a (String b (String c ""))
    /\ Calendar.month_of_name (String a (String b (String c ""))) = Some m.
Proof.
  intros R.
  assert (T : month_round_trip m = true).
  { apply (all_from_spec month_round_trip (Z.to_nat 12) 1).
    - vm_cast_no_check (eq_refl true).
    - rewrite Z2Nat.id; lia. }
  unfold month_round_trip in T.
  destruct (Calendar.month_name m) as [|a [|b [|c [|? ?]]]];
    try discriminate T.
  exists a, b, c. split; [reflexivity|].
  destruct (Calendar.month_of_name _) as [v|]; [|discriminate T].
  apply Z.eqb_eq in T. congruence.
Qed.

Lemma day_name_text w :
  0 <= w < 7 ->
  exists a b c, Calendar.day_name w = String a (String b (String c "")).
Proof.
  intros R.
  assert (T : day_name_three w = true).
  { apply (all_from_spec day_name_three (Z.to_nat 7) 0).
    - vm_cast_no_check (eq_refl true).
    - rewrite Z2Nat.id; lia. }
  unfold day_name_three in T.
  destruct (Calendar.day_name w) as [|a [|b [|c [|? ?]]]];
    try discriminate T.
  exists a, b, c. reflexivity.
Qed.

(** The fields of a time value are in range. *)
Lemma fields_at_ranges offset t :
  let c := Calendar.fields_at offset t in
  1 <= Calendar.month c <= 12 /\ 1 <= Calendar.day c <= 31
  /\ 0 <= Calendar.hours c < 24 /\ 0 <= Calendar.minutes c < 60
  /\ 0 <= Calendar.seconds c < 60 /\ 0 <= Calendar.weekday c < 7.
Proof.
  unfold Calendar.fields_at.
  pose proof (days_from_civil_from_days ((t + offset) / Calendar.msPerDay)) as K.
  destruct (Calendar.civil_from_days ((t + offset) / Calendar.msPerDay))
    as [[y m] d].
  destruct K as (_ & Km & Kd). cbn [Calendar.month Calendar.day Calendar.hours
    Calendar.minutes Calendar.seconds Calendar.weekday].
  unfold Calendar.msPerDay.
  pose proof (Z.mod_pos_bound (t + offset) 86400000 ltac:(lia)).
  repeat split; try lia;
    try (apply Z.mod_pos_bound; lia);
    try (apply Z.div_pos; lia);
    try (apply Z.div_lt_upper_bound; lia).
Qed.

Lemma year_bounds_days days y m d :
  Calendar.civil_from_days days = (y, m, d) ->
  100 <= y <= 9999 -> -719468 <= days < 2932957.
Proof.
  rewrite civil_from_days_era. cbv zeta.
  set (era := (days + 719468) / 146097).
  set (doe := days + 719468 - era * 146097).
  assert (R : 0 <= doe < 146097).
  { unfold doe, era.
    pose proof (Z.mod_pos_bound (days + 719468) 146097 ltac:(lia)) as B.
    rewrite Z.mod_eq in B by lia. lia. }
  pose proof (civil_of_doe_round_trip doe R) as T.
  destruct (civil_of_doe doe) as [[yoe m'] d'].
  destruct T as (Ty & _).
  intros E Y. injection E as Ey _ _. subst y.
  unfold doe in R. destruct (m' <=? 2); lia.
Qed.

(** The UTC wall clock of an instant in the years 100 to 9999 is far inside
    the range of time values. *)
Lemma wall_clock_bounds t :
  100 <= Calendar.year (Calendar.fields_at 0 t) <= 9999 ->
  -300000000000000 <= wall_clock t <= 300000000000000.
Proof.
  unfold wall_clock.
  pose proof (fields_at_ranges 0 t) as R. cbv zeta in R.
  revert R. unfold Calendar.fields_at, Calendar.make_time.
  rewrite Z.add_0_r.
  pose proof (days_from_civil_from_days (t / Calendar.msPerDay)) as K.
  pose proof (year_bounds_days (t / Calendar.msPerDay)) as B.
  destruct (Calendar.civil_from_days (t / Calendar.msPerDay)) as [[y m] d].
  destruct K as (K & _). specialize (B y m d eq_refl).
  cbn [Calendar.year Calendar.month Calendar.day Calendar.hours
         Calendar.minutes Calendar.seconds Calendar.weekday].
  rewrite K. unfold Calendar.msPerDay in *.
  intros (_ & _ & Rh & Rmi & Rs & _) Y. specialize (B Y). lia.
Qed.

(** Putting the fields of a time value back together gives a time value
    with the same fields: the milliseconds are all that is lost. *)
Lemma fields_at_make_time offset t :
  let c := Calendar.fields_at 0 t in
  Calendar.fields_at offset
    (Calendar.make_time (Calendar.year c) (Calendar.month c) (Calendar.day c)
       (Calendar.hours c) (Calendar.minutes c) (Calendar.seconds c) - offset)
  = c.
Proof.
  unfold Calendar.fields_at, Calendar.make_time.
  rewrite Z.add_0_r.
  pose proof (days_from_civil_from_days (t / Calendar.msPerDay)) as K.
  destruct (Calendar.civil_from_days (t / Calendar.msPerDay)) as [[y m] d] eqn:E.
  destruct K as (K & _).
  cbn [Calendar.year Calendar.month Calendar.day Calendar.hours
    Calendar.minutes Calendar.seconds]. rewrite K.
  unfold Calendar.msPerDay in *.
  set (days := t / 86400000) in *. set (r := t mod 86400000).
  assert (R : 0 <= r < 86400000) by (apply Z.mod_pos_bound; lia).
  set (r' := r / 3600000 * 3600000 + r / 60000 mod 60 * 60000
             + r / 1000 mod 60 * 1000).
  replace (days * 86400000 + r / 3600000 * 3600000 + r / 60000 mod 60 * 60000
           + r / 1000 mod 60 * 1000 - offset + offset)
    with (r' + days * 86400000) by (unfold r'; lia).
  assert (Q : r' = r - r mod 1000).
  { unfold r'. Z.to_euclidean_division_equations. lia. }
  assert (R' : 0 <= r' < 86400000).
  { rewrite Q. pose proof (Z.mod_pos_bound r 1000 ltac:(lia)).
    split; [|lia].
    pose proof (Z.mod_le r 1000 ltac:(lia) ltac:(lia)). lia. }
  rewrite Z.div_add, Z.mod_add by lia.
  rewrite (Z.div_small r'), (Z.mod_small r') by lia.
  rewrite Z.add_0_l, E.
  assert (H1 : r' / 3600000 = r / 3600000)
    by (rewrite Q; Z.to_euclidean_division_equations; lia).
  assert (H2 : r' / 60000 = r / 60000)
    by (rewrite Q; Z.to_euclidean_division_equations; lia).
  assert (H3 : r' / 1000 = r / 1000)
    by (rewrite Q; Z.to_euclidean_division_equations; lia).
  rewrite H1, H2, H3. reflexivity.
Qed.

Section WithRuntime.
Context {rt : Runtime}.

Ltac unfold_methods :=
  unfold call, startsWith, endsWith, contains, doesNotContain, isEmpty,
    isNotEmpty, isAnything, isEmptyString, equals, notEquals, isOneOf,
    greaterThan, greaterThanOrIs, lessThan, lessThanOrIs,
    and_, or_, NQ, _addLogicalOperator,
    orderAscending, orderDescending, field.

Ltac unfold_monad :=
  unfold bind, get_this, throw_if, throw, ret, push.

(** What [_addCondition] does, by cases on its two guards. *)
Lemma _addCondition_run operator operand types this :
  _addCondition operator operand types this =
  if truthy (currentField this)
  then if Text.includes types (typeof operand)
       then (Return tt,
             pushed this (currentField this ++ operator ++ ToString operand))
       else (Throw (QueryTypeException
                      (if (1 <? List.length types)%nat
                       then "Invalid type passed. Expected one of: "
                              ++ Text.join "," types
                       else "Invalid type passed. Expected: "
                              ++ Text.join "," types)), this)
  else (Throw (QueryMissingFieldException "Conditions requires a field."),
        this).
Proof.
  unfold _addCondition; unfold_monad.
  destruct (truthy (currentField this)); simpl; [|reflexivity].
  destruct (Text.includes types (typeof operand)); reflexivity.
Qed.

Lemma truthy_false s : truthy s = false <-> s = "".
Proof.
  unfold truthy. destruct (String.eqb_spec s ""); simpl; split;
    congruence.
Qed.

Lemma truthy_true s : truthy s = true <-> s <> "".
Proof.
  unfold truthy. destruct (String.eqb_spec s ""); simpl; split;
    congruence.
Qed.

(** Every call does one of three things: throws and leaves the object as
    it was, pushes one token, or (for [field]) replaces the current
    field. *)
Inductive outcome (m : method) (this : t) : completion unit * t -> Prop :=
| threw e : outcome m this (Throw e, this)
| pushed_one token : outcome m this (Return tt, pushed this token)
| selected name :
    m = Field name ->
    outcome m this
            (Return tt, {| query := query this; currentField := name |}).

Lemma _addComparisonCondition_run v operator this :
  _addComparisonCondition v operator this =
  match as_datelike v with
  | Some dateTime =>
      _addCondition operator (VString (_getDateTimeInUTC dateTime))
                    ["number"; "string"] this
  | None =>
      if is_scalar v
      then _addCondition operator v ["number"; "string"] this
      else (Throw (QueryTypeException
                     ("Expected string/Date/number type, found: "
                        ++ typeof v)), this)
  end.
Proof.
  unfold _addComparisonCondition, is_scalar.
  destruct v; reflexivity.
Qed.

Lemma between_run startValue endValue this :
  between startValue endValue this =
  match between_operand startValue endValue with
  | Some operand => _addCondition "BETWEEN" (VString operand) ["string"] this
  | None =>
      (Throw (QueryTypeException
                "Expected string/date/number type, found: undefined"), this)
  end.
Proof.
  unfold between, between_operand.
  destruct startValue, endValue; reflexivity.
Qed.

Ltac split_outcome :=
  repeat first
    [ rewrite _addCondition_run
    | rewrite _addComparisonCondition_run
    | rewrite between_run
    | match goal with
      | |- outcome _ _ (if ?b then _ else _) => destruct b
      | |- outcome _ _ ((if ?b then _ else _) _) => destruct b
      | |- outcome _ _ (match as_datelike ?v with _ => _ end) =>
          destruct (as_datelike v)
      | |- outcome _ _ (match between_operand ?a ?b with _ => _ end) =>
          destruct (between_operand a b)
      | |- outcome _ _ (match ?v with VArray _ => _ | _ => _ end _) =>
          destruct v
      end ].

Lemma call_outcome m this : outcome m this (call m this).
Proof.
  destruct m; unfold_methods; split_outcome;
    unfold_monad; simpl;
    try (constructor; fail).
  eapply selected; reflexivity.
Qed.

(** [as_datelike] is the test [x instanceof Date || x instanceof moment]. *)
Lemma as_datelike_instanceof (v : value) :
  match as_datelike v with
  | Some _ => instanceof_Date v || instanceof_moment v = true
  | None => instanceof_Date v || instanceof_moment v = false
  end.
Proof. destruct v; reflexivity. Qed.

Lemma between_operand_supported (a b : value) :
  match between_operand a b with
  | Some _ => between_pair_supported a b = true
  | None => between_pair_supported a b = false
  end.
Proof. destruct a, b; reflexivity. Qed.

Lemma call_throw_same m this e :
  fst (call m this) = Throw e -> snd (call m this) = this.
Proof.
  destruct (call_outcome m this); simpl; intros K;
    solve [reflexivity | discriminate K].
Qed.

Lemma call_prefix m this :
  prefix_of (query this) (query (snd (call m this))).
Proof.
  destruct (call_outcome m this); simpl.
  - exists []. symmetry. apply app_nil_r.
  - exists [token]. reflexivity.
  - exists []. symmetry. apply app_nil_r.
Qed.

Lemma prefix_of_trans l1 l2 l3 :
  prefix_of l1 l2 -> prefix_of l2 l3 -> prefix_of l1 l3.
Proof.
  intros [r1 ->] [r2 ->]. exists (r1 ++ r2)%list. symmetry. apply app_assoc.
Qed.

Lemma after_prefix ms : forall this,
  prefix_of (query this) (query (after ms this)).
Proof.
  induction ms as [|m ms IH]; intros this.
  - exists []. symmetry. apply app_nil_r.
  - simpl. eapply prefix_of_trans; [apply call_prefix | apply IH].
Qed.

Lemma appended_by_spec m this :
  query (snd (call m this)) = (query this ++ appended_by m this)%list.
Proof.
  unfold appended_by.
  destruct (call_prefix m this) as [rest E]. rewrite E.
  rewrite skipn_app, skipn_all, Nat.sub_diag. reflexivity.
Qed.

Lemma after_appended ms : forall this,
  query (after ms this) = (query this ++ appended ms this)%list.
Proof.
  induction ms as [|m ms IH]; intros this; simpl.
  - symmetry. apply app_nil_r.
  - rewrite IH, appended_by_spec. symmetry. apply app_assoc.
Qed.

Lemma append_empty_r (s : string) : s ++ "" = s.
Proof. induction s; simpl; congruence. Qed.

(** Joining with the empty separator is plain concatenation. *)
Lemma join_empty_concat (l : list string) :
  Text.join "" l = fold_right String.append "" l.
Proof.
  induction l as [|x [|y rest] IH].
  - reflexivity.
  - simpl. symmetry. apply append_empty_r.
  - change (Text.join "" (x :: y :: rest))
      with (x ++ "" ++ Text.join "" (y :: rest)).
    rewrite IH. reflexivity.
Qed.

Lemma build_run this :
  build this =
  match query this with
  | [] => (Throw (QueryEmptyException
                    "Atleast one condition is required in query."), this)
  | _ :: _ => (Return (Text.join "" (query this)), this)
  end.
Proof.
  unfold build; unfold_monad. destruct (query this); reflexivity.
Qed.

Lemma field_keeps_query name this :
  query (snd (field name this)) = query this.
Proof. reflexivity. Qed.

Lemma after_fields_query names : forall this,
  query (after (map Field names) this) = query this.
Proof.
  induction names as [|x names IH]; intros this; simpl.
  - reflexivity.
  - rewrite IH. reflexivity.
Qed.

(** C1.  [build] throws the empty-query exception exactly when the token
    sequence is empty, and the token sequence of an object is what the
    calls made on it since construction appended, so that is exactly when
    nothing has been appended; calls of [field], however many, append
    nothing.  Otherwise [build] returns the tokens concatenated in append
    order with nothing put between them. *)
Theorem build_empty_iff_nothing_appended (ms : list method) :
  let this := after ms constructor in
  query this = appended ms constructor
  /\ (appended ms constructor = [] <->
      exists message, fst (build this) = Throw (QueryEmptyException message))
  /\ (appended ms constructor <> [] ->
      fst (build this)
      = Return (fold_right String.append "" (appended ms constructor)))
  /\ (forallb is_field ms = true -> appended ms constructor = []).
Proof.
  intros this.
  assert (Q : query this = appended ms constructor)
    by (unfold this; rewrite after_appended; reflexivity).
  split; [exact Q|]. rewrite <- Q. rewrite build_run.
  split; [|split].
  - destruct (query this); simpl; split.
    + eauto.
    + reflexivity.
    + discriminate.
    + intros [message H]. discriminate H.
  - destruct (query this) as [|x l] eqn:E; [congruence|].
    intros _. cbn [fst]. rewrite join_empty_concat. reflexivity.
  - intros F. unfold this. clear Q this.
    assert (forall b, query (after ms b) = query b) as K.
    { induction ms as [|m ms IH]; intros b; [reflexivity|].
      simpl in F. apply andb_prop in F as [Fm F].
      destruct m; try discriminate Fm. simpl. rewrite (IH F). reflexivity. }
    apply K.
Qed.

Lemma build_keeps_builder this : snd (build this) = this.
Proof. rewrite build_run. destruct (query this); reflexivity. Qed.

(** C7.  A call that throws hands the object back exactly as it was:
    same token sequence, same current field.  This holds for every
    chainable method with any operands and for [build]. *)
Theorem throw_leaves_builder_unchanged (this : t) (e : exception) :
  (forall m, fst (call m this) = Throw e -> snd (call m this) = this)
  /\ (fst (build this) = Throw e -> snd (build this) = this).
Proof.
  split.
  - intros m. apply call_throw_same.
  - intros _. apply build_keeps_builder.
Qed.

(** C8.  After every call the old token sequence is a prefix of the new
    one, also over a whole history of calls; [build] hands the object
    back as it was, so a second [build] gives what the first gave. *)
Theorem query_only_grows (this : t) :
  (forall m, prefix_of (query this) (query (snd (call m this))))
  /\ (forall ms, prefix_of (query this) (query (after ms this)))
  /\ snd (build this) = this
  /\ fst (build (snd (build this))) = fst (build this).
Proof.
  split; [|split; [|split]].
  - intros m. apply call_prefix.
  - intros ms. apply after_prefix.
  - apply build_keeps_builder.
  - rewrite build_keeps_builder. reflexivity.
Qed.

Lemma nullary_condition_run operator types this :
  Text.includes types "string" = true ->
  _addCondition operator (VString "") types this =
  if truthy (currentField this)
  then (Return tt, pushed this (currentField this ++ operator))
  else (Throw (QueryMissingFieldException "Conditions requires a field."),
        this).
Proof.
  intros I. rewrite _addCondition_run. simpl typeof. rewrite I.
  simpl ToString. rewrite append_empty_r. reflexivity.
Qed.

(** C10.  [isEmpty], [isNotEmpty], [isAnything] and [isEmptyString] pass
    the empty string, whose type is in their allowed set: they never throw
    a type exception, the only thing they can throw is the missing-field
    exception, and with a current field set they push the field followed
    by the operator. *)
Theorem nullary_conditions_never_type_error (this : t) :
  Forall
    (fun '(m, operator, types) =>
       call m = _addCondition operator (VString "") types
       /\ Text.includes types (typeof (VString "")) = true
       /\ (forall message,
             fst (call m this) <> Throw (QueryTypeException message))
       /\ (forall e, fst (call m this) = Throw e ->
                      e = QueryMissingFieldException
                            "Conditions requires a field.")
       /\ (currentField this <> "" ->
           call m this
           = (Return tt, pushed this (currentField this ++ operator))))
    [ (IsEmpty, "ISEMPTY", ["string"; "number"]);
      (IsNotEmpty, "ISNOTEMPTY", ["string"; "number"]);
      (IsAnything, "ANYTHING", ["string"; "number"]);
      (IsEmptyString, "EMPTYSTRING", ["string"]) ].
Proof.
  repeat constructor; unfold_methods;
    try (intros message; rewrite nullary_condition_run by reflexivity;
         destruct (truthy (currentField this)); simpl; discriminate);
    try (intros e; rewrite nullary_condition_run by reflexivity;
         destruct (truthy (currentField this)); simpl; congruence);
    intros F; apply truthy_true in F;
    rewrite nullary_condition_run by reflexivity; rewrite F; reflexivity.
Qed.

Lemma equals_run data this :
  equals data this =
  if is_scalar data then _addCondition "=" data ["string"; "number"] this
  else if Array_isArray data then _addCondition "IN" data ["object"] this
  else (Throw (QueryTypeException
                 ("Expected string or list type, found: " ++ typeof data)),
        this).
Proof. unfold equals, is_scalar. destruct data; reflexivity. Qed.

Lemma notEquals_run data this :
  notEquals data this =
  if is_scalar data then _addCondition "!=" data ["string"; "number"] this
  else if Array_isArray data then _addCondition "NOT IN" data ["object"] this
  else (Throw (QueryTypeException
                 ("Expected string or list type, found: " ++ typeof data)),
        this).
Proof. unfold notEquals, is_scalar. destruct data; reflexivity. Qed.

Lemma isOneOf_run data this :
  isOneOf data this =
  match data with
  | VArray elems =>
      _addCondition "IN" (VString (Array_join elems ",")) ["string"] this
  | _ => (Throw (QueryTypeException
                   ("Expected array type, found: " ++ typeof data)), this)
  end.
Proof. destruct data; reflexivity. Qed.

(** C2.  [equals] and [notEquals] dispatch on the type of their argument.
    On an object with a current field set, which every condition method
    asks for, they push [field=operand] / [field!=operand] for a string or
    a number (the number through its string conversion) and [fieldIN...] /
    [fieldNOT IN...] with the comma-joined elements for an array.  For any
    other value they throw a type exception whose message ends in the
    [typeof] of the value, and leave the object as it was. *)
Theorem equals_dispatch (this : t) (data : value) :
  (currentField this <> "" ->
   (forall s, data = VString s ->
      equals data this = (Return tt, pushed this (currentField this ++ "=" ++ s))
      /\ notEquals data this
         = (Return tt, pushed this (currentField this ++ "!=" ++ s)))
   /\ (forall n, data = VNumber n ->
      equals data this
      = (Return tt, pushed this (currentField this ++ "=" ++ NumberToString n))
      /\ notEquals data this
         = (Return tt,
            pushed this (currentField this ++ "!=" ++ NumberToString n)))
   /\ (forall elems, data = VArray elems ->
      equals data this
      = (Return tt,
         pushed this (currentField this ++ "IN" ++ Array_join elems ","))
      /\ notEquals data this
         = (Return tt,
            pushed this
                   (currentField this ++ "NOT IN" ++ Array_join elems ","))))
  /\ (is_scalar data = false -> Array_isArray data = false ->
      equals data this
      = (Throw (QueryTypeException
                  ("Expected string or list type, found: " ++ typeof data)),
         this)
      /\ notEquals data this
         = (Throw (QueryTypeException
                     ("Expected string or list type, found: "
                        ++ typeof data)), this)).
Proof.
  split.
  - intros F. apply truthy_true in F.
    repeat split; intros; subst data;
      rewrite ?equals_run, ?notEquals_run; simpl;
      rewrite _addCondition_run, F; reflexivity.
  - intros S A. rewrite equals_run, notEquals_run, S, A. split; reflexivity.
Qed.

(** With no current field, a condition call throws: the missing-field
    exception if it reaches [_addCondition], and otherwise the type
    exception of the method's own dispatch. *)
Lemma condition_without_field (m : method) (this : t) :
  currentField this = "" -> is_condition m = true ->
  (passes_own_dispatch m = true ->
   call m this
   = (Throw (QueryMissingFieldException "Conditions requires a field."),
      this))
  /\ (passes_own_dispatch m = false ->
      exists message,
        call m this = (Throw (QueryTypeException message), this)).
Proof.
  intros F C. apply truthy_false in F.
  destruct m; try discriminate C; cbn [call passes_own_dispatch];
    unfold startsWith, endsWith, contains, doesNotContain, isEmpty,
      isNotEmpty, isAnything, isEmptyString, greaterThan, greaterThanOrIs,
      lessThan, lessThanOrIs;
    rewrite ?equals_run, ?notEquals_run, ?isOneOf_run,
      ?_addComparisonCondition_run, ?between_run;
    repeat match goal with
      | |- context [match as_datelike ?v with _ => _ end] =>
          pose proof (as_datelike_instanceof v) as D;
          destruct (as_datelike v); rewrite D; clear D
      | |- context [match between_operand ?a ?b with _ => _ end] =>
          pose proof (between_operand_supported a b) as D;
          destruct (between_operand a b); rewrite D; clear D
      | |- context [if is_scalar ?v then _ else _] => destruct (is_scalar v)
      | |- context [if Array_isArray ?v then _ else _] =>
          destruct (Array_isArray v)
      | |- context [match ?v with VArray _ => _ | _ => _ end] => destruct v
      end;
    rewrite ?_addCondition_run, ?F;
    (split; intros P; [try discriminate P | try discriminate P]);
    eauto.
Qed.

Lemma after_without_field ms : forall this,
  forallb (fun m => negb (is_field m)) ms = true ->
  currentField (after ms this) = currentField this.
Proof.
  induction ms as [|m ms IH]; intros this N; [reflexivity|].
  simpl in N. apply andb_prop in N as [Nm N].
  simpl. rewrite (IH _ N).
  destruct (call_outcome m this) as [e|token|name E]; try reflexivity.
  subst m. discriminate Nm.
Qed.

(** C5, as amended.  On an object on which [field] has not been called,
    whatever else has been, every condition method throws and leaves the
    object as it was: the missing-field exception when the call gets to
    [_addCondition], which the twelve methods without a type dispatch
    of their own always do, and a type exception when the dispatch of
    [equals], [notEquals], [isOneOf], a comparison or [between] turns
    the operand down first. *)
Theorem condition_before_field (ms : list method) (m : method) :
  forallb (fun m => negb (is_field m)) ms = true ->
  is_condition m = true ->
  let this := after ms constructor in
  (passes_own_dispatch m = true ->
   call m this
   = (Throw (QueryMissingFieldException "Conditions requires a field."),
      this))
  /\ (passes_own_dispatch m = false ->
      exists message,
        call m this = (Throw (QueryTypeException message), this)).
Proof.
  intros N C this. apply condition_without_field; [|exact C].
  unfold this. rewrite after_without_field by exact N. reflexivity.
Qed.

(** C9, as amended.  [field ("")] succeeds and leaves the object without
    a usable current field: every condition method called next throws
    what it throws on an object whose field was never set, the
    missing-field exception when the call gets to [_addCondition] and
    the type exception of the method's own dispatch otherwise. *)
Theorem condition_after_empty_field (this : t) (m : method) :
  is_condition m = true ->
  let this' := snd (field "" this) in
  fst (field "" this) = Return tt
  /\ (passes_own_dispatch m = true ->
      call m this'
      = (Throw (QueryMissingFieldException "Conditions requires a field."),
         this'))
  /\ (passes_own_dispatch m = false ->
      exists message,
        call m this' = (Throw (QueryTypeException message), this'))
  /\ fst (call m this')
     = fst (call m {| query := query this;
                      currentField := currentField constructor |}).
Proof.
  intros C this'. split; [reflexivity|].
  destruct (condition_without_field m this' eq_refl C) as [A B].
  repeat split; assumption || reflexivity.
Qed.

(** C6, as amended.  When a condition method other than [between]
    throws a type exception, the message is the text [type_error_message]
    gives for the method.  For [equals] and [notEquals] it is
    [Expected string or list type, found: ], for [isOneOf]
    [Expected array type, found: ] and for the four comparisons
    [Expected string/Date/number type, found: ], each followed by the
    [typeof] of the operand.  For [startsWith], [endsWith], [contains] and
    [doesNotContain], whose exception comes from [_addCondition], it is
    [Invalid type passed. Expected: string], which does not mention the
    type of the operand. *)
Theorem type_error_messages (m : method) (this : t) (message : string) :
  is_condition m = true -> is_between m = false ->
  fst (call m this) = Throw (QueryTypeException message) ->
  type_error_message m = Some message
  /\ match validated_operand m with
     | Some v => typeof v <> "string"
                 /\ Text.mentions (typeof v) message = false
     | None => True
     end.
Proof.
  intros C B H.
  destruct m; try discriminate C; try discriminate B; cbn [call] in H;
    unfold startsWith, endsWith, contains, doesNotContain, isEmpty,
      isNotEmpty, isAnything, isEmptyString, greaterThan, greaterThanOrIs,
      lessThan, lessThanOrIs in H;
    rewrite ?equals_run, ?notEquals_run, ?isOneOf_run,
      ?_addComparisonCondition_run in H;
    try destruct operand; try destruct data;
    cbn [as_datelike is_scalar Array_isArray typeof String.eqb Ascii.eqb
           Bool.eqb orb andb] in H;
    rewrite ?_addCondition_run in H;
    try (destruct (truthy (currentField this)));
    cbn in H; try discriminate H.
  all: injection H as <-.
  all: split; [reflexivity|].
  all: cbn; try exact I.
  all: split; [discriminate | reflexivity].
Qed.

(** What [between] does on each kind of pair, with a current field
    set. *)
Lemma between_cases (this : t) (startValue endValue : value) :
  currentField this <> "" ->
  match between_operand startValue endValue with
  | Some operand =>
      between startValue endValue this
      = (Return tt, pushed this (currentField this ++ "BETWEEN" ++ operand))
  | None =>
      between startValue endValue this
      = (Throw (QueryTypeException
                  "Expected string/date/number type, found: undefined"),
         this)
  end.
Proof.
  intros F. apply truthy_true in F. rewrite between_run.
  destruct (between_operand startValue endValue); [|reflexivity].
  rewrite _addCondition_run, F. reflexivity.
Qed.

Lemma between_operand_numbers a b :
  between_operand (VNumber a) (VNumber b)
  = Some (NumberToString a ++ "@" ++ NumberToString b).
Proof. reflexivity. Qed.

Lemma between_operand_strings a b :
  between_operand (VString a) (VString b) = Some (a ++ "@" ++ b).
Proof. reflexivity. Qed.

Lemma between_operand_mixed a b :
  typeof a <> typeof b -> between_operand a b = None.
Proof. destruct a, b; simpl; intros T; congruence || reflexivity. Qed.

Lemma between_operand_dates a b startDate endDate :
  as_datelike a = Some startDate -> as_datelike b = Some endDate ->
  between_operand a b
  = Some (_getDateTimeInUTC startDate ++ "@" ++ _getDateTimeInUTC endDate).
Proof.
  destruct a, b; simpl; intros A B; try discriminate A; try discriminate B;
    injection A as <-; injection B as <-; reflexivity.
Qed.

(** The moment branch of [_getDateTimeInUTC] formats the moment as it
    stands, at its own offset. *)
Lemma _getDateTimeInUTC_moment (m : Moment) :
  _getDateTimeInUTC (IsMoment m) = Moment_format m "YYYY-MM-DD hh:mm:ss".
Proof. reflexivity. Qed.

(** It agrees with the specification on moments that are in UTC mode
    already. *)
Lemma _getDateTimeInUTC_utc_moment (m : Moment) :
  m_offset m = 0 ->
  _getDateTimeInUTC (IsMoment m) = spec_datetime_in_UTC (IsMoment m).
Proof.
  destruct m as [time offset]; simpl. intros ->. reflexivity.
Qed.

(** The text [toUTCString] gives, cut to 25 characters, reads back as the
    same calendar fields taken as local time, for a year from 100 to 9999:
    the cut assumes a four-digit year, and a year below 100 is moved by
    [legacy_year]. *)
Lemma Date_parse_toUTCString (t : Z) :
  100 <= Calendar.year (Calendar.fields_at 0 t) <= 9999 ->
  Date_parse (Text.substr 0 25 (Date_toUTCString (mkDate (Some t))))
  = mkDate (Some (wall_clock t - offset_of_local (wall_clock t) * 60000)).
Proof.
  intros Y. pose proof (wall_clock_bounds t Y) as W. revert W.
  unfold wall_clock. set (c := Calendar.fields_at 0 t) in *. intros W.
  destruct (fields_at_ranges 0 t) as (Rm & Rd & Rh & Rmi & Rs & Rw).
  fold c in Rm, Rd, Rh, Rmi, Rs, Rw.
  destruct (year_text (Calendar.year c) ltac:(lia))
    as (y1 & y2 & y3 & y4 & Ey & Py).
  destruct (month_text _ Rm) as (m1 & m2 & m3 & Em & Pm).
  destruct (day_name_text _ Rw) as (w1 & w2 & w3 & Ew).
  assert (Pd := pad2_text (Calendar.day c) ltac:(lia)).
  assert (Ph := pad2_text (Calendar.hours c) ltac:(lia)).
  assert (Pmi := pad2_text (Calendar.minutes c) ltac:(lia)).
  assert (Ps := pad2_text (Calendar.seconds c) ltac:(lia)).
  unfold Date_toUTCString. fold c. rewrite Ey, Em, Ew.
  unfold Date_parse, read_number, Text.substr.
  unfold Text.pad2 in *.
  cbn [String.append String.length substring String.eqb Ascii.eqb Bool.eqb
         Nat.eqb andb Nat.add Nat.sub].
  rewrite Pd, Pm, Py, Ph, Pmi, Ps.
  replace ((1 <=? Calendar.day c) && (Calendar.day c <=? 31)
           && (Calendar.hours c <=? 23) && (Calendar.minutes c <=? 59)
           && (Calendar.seconds c <=? 59)) with true
    by (symmetry; repeat (apply andb_true_intro; split); apply Z.leb_le; lia).
  assert (L : legacy_year (Calendar.year c) = Calendar.year c).
  { unfold legacy_year.
    destruct (Z.ltb_spec (Calendar.year c) 50); [lia|].
    destruct (Z.ltb_spec (Calendar.year c) 100); [lia|]. reflexivity. }
  cbv zeta. rewrite L.
  set (local := Calendar.make_time _ _ _ _ _ _) in *.
  pose proof (offset_of_local_bound local) as O.
  unfold TimeClip.
  replace (Z.abs (local - offset_of_local local * 60000) <=? 8640000000000000)
    with true by (symmetry; apply Z.leb_le; lia).
  reflexivity.
Qed.

(** The pattern of [_formatDateTime] has no zone token: what it renders
    depends on the calendar fields alone. *)
Lemma format_datetime_fields (c : Calendar.civil) (offset : Z) :
  format_fuel 19 c offset "YYYY-MM-DD hh:mm:ss"
  = Text.signed_pad 4 (Calendar.year c) ++ "-"
      ++ Text.pad2 (Calendar.month c) ++ "-"
      ++ Text.pad2 (Calendar.day c) ++ " "
      ++ Text.pad2 (let h := Calendar.hours c mod 12 in
                    if h =? 0 then 12 else h) ++ ":"
      ++ Text.pad2 (Calendar.minutes c) ++ ":"
      ++ Text.pad2 (Calendar.seconds c).
Proof.
  cbv [format_fuel format_token String.prefix Ascii.ascii_dec ascii_rec
         ascii_rect Bool.bool_dec bool_rec bool_rect sumbool_rec sumbool_rect
         String.length Text.substr substring Nat.sub].
  rewrite append_empty_r. reflexivity.
Qed.

(** The [Date] branch of [_getDateTimeInUTC] does what the specification
    asks for on every invalid [Date], and on every valid one with a year
    from 100 to 9999 whose UTC wall clock the host reads in place: it gives
    the wall clock of the instant in UTC. *)
Lemma _getDateTimeInUTC_Date (d : Date) :
  match d with
  | mkDate (Some t) =>
      100 <= Calendar.year (Calendar.fields_at 0 t) <= 9999
      /\ wall_clock_in_place t
  | mkDate None => True
  end ->
  _getDateTimeInUTC (IsDate d) = spec_datetime_in_UTC (IsDate d).
Proof.
  destruct d as [[t|]]; [|reflexivity]. intros (Y & P).
  unfold _getDateTimeInUTC, spec_datetime_in_UTC, _formatDateTime.
  rewrite Date_parse_toUTCString by exact Y.
  unfold wall_clock_in_place in P. cbv zeta in P.
  unfold moment, Moment_utc, Moment_format; cbn [m_time m_offset].
  rewrite P.
  change (String.length "YYYY-MM-DD hh:mm:ss") with 19%nat.
  unfold wall_clock. rewrite fields_at_make_time.
  rewrite !format_datetime_fields. reflexivity.
Qed.

(** On a host whose offset never changes every wall clock is read in
    place. *)
Lemma fixed_offset_in_place (t : Z) :
  (forall x y, offset_at x = offset_of_local y) -> wall_clock_in_place t.
Proof. intros F. unfold wall_clock_in_place. cbv zeta. apply F. Qed.

(** Two [Date] operands with years from 100 to 9999, whose wall clocks the
    host reads in place, do give the UTC datetimes of the specification. *)
Lemma between_operand_Dates_utc (t1 t2 : Z) :
  100 <= Calendar.year (Calendar.fields_at 0 t1) <= 9999
  /\ wall_clock_in_place t1 ->
  100 <= Calendar.year (Calendar.fields_at 0 t2) <= 9999
  /\ wall_clock_in_place t2 ->
  between_operand (VDate (mkDate (Some t1))) (VDate (mkDate (Some t2)))
  = Some (spec_datetime_in_UTC (IsDate (mkDate (Some t1))) ++ "@"
            ++ spec_datetime_in_UTC (IsDate (mkDate (Some t2)))).
Proof.
  intros Y1 Y2.
  rewrite <- (_getDateTimeInUTC_Date (mkDate (Some t1)) Y1).
  rewrite <- (_getDateTimeInUTC_Date (mkDate (Some t2)) Y2).
  reflexivity.
Qed.

(** A pair that is none of the three kinds is turned down with a type
    exception, with or without a current field. *)
Lemma between_rejects (this : t) (startValue endValue : value) :
  between_pair_supported startValue endValue = false ->
  between startValue endValue this
  = (Throw (QueryTypeException
              "Expected string/date/number type, found: undefined"), this).
Proof.
  intros U. rewrite between_run.
  pose proof (between_operand_supported startValue endValue) as D.
  destruct (between_operand startValue endValue); [congruence|reflexivity].
Qed.

(** C3.  [between] on two moments that display two hours east of UTC,
    both at 10:00:00 UTC, one day apart: the operand pushed holds the
    12:00:00 wall clock of the moments, where the UTC datetimes the
    specification asks for read 10:00:00. *)
Theorem between_moments_keep_their_offset :
  let startValue := {| m_time := Some 1577872800000; m_offset := 120 |} in
  let endValue := {| m_time := Some 1577959200000; m_offset := 120 |} in
  let this := {| query := []; currentField := "opened_at" |} in
  between (VMoment startValue) (VMoment endValue) this
  = (Return tt,
     pushed this "opened_atBETWEEN2020-01-01 12:00:00@2020-01-02 12:00:00")
  /\ spec_datetime_in_UTC (IsMoment startValue) ++ "@"
       ++ spec_datetime_in_UTC (IsMoment endValue)
     = "2020-01-01 10:00:00@2020-01-02 10:00:00".
Proof. split; vm_compute; reflexivity. Qed.

End WithRuntime.

(** C4.  One instant, 2020-01-01T10:00:00Z, on a host two hours east of
    UTC, handed over as a [Date] and as the moment [moment (date)] makes of
    it: the [Date] branch gives the UTC wall clock, as the specification's
    normalization does for both, and the moment branch gives the local
    wall clock. *)
Theorem moment_branch_skips_utc :
  let date := mkDate (Some 1577872800000) in
  let wrapped := moment (rt := example_runtime) date in
  _getDateTimeInUTC (rt := example_runtime) (IsDate date) = "2020-01-01 10:00:00"
  /\ _getDateTimeInUTC (rt := example_runtime) (IsMoment wrapped)
     = "2020-01-01 12:00:00"
  /\ spec_datetime_in_UTC (rt := example_runtime) (IsDate date)
     = "2020-01-01 10:00:00"
  /\ spec_datetime_in_UTC (rt := example_runtime) (IsMoment wrapped)
     = "2020-01-01 10:00:00".
Proof. repeat split; vm_compute; reflexivity. Qed.

(** The [hh] of the pattern is moment's 12-hour field: 13:05:09 UTC reads
    01:05:09. *)
Example hh_is_the_twelve_hour_field :
  _getDateTimeInUTC (rt := example_runtime) (IsDate (mkDate (Some 1793711109000)))
  = "2026-11-03 01:05:09"
  /\ Date_toUTCString (mkDate (Some 1793711109000))
     = "Tue, 03 Nov 2026 13:05:09 GMT".
Proof. split; vm_compute; reflexivity. Qed.

(** A [Date] in the years 0 to 99 comes back in 2000 to 2049 or 1950 to
    1999: the text is read with a two-digit year. *)
Example two_digit_years_are_moved :
  _getDateTimeInUTC (rt := example_runtime)
    (IsDate (mkDate (Some (-62167176000000))))
  = "2000-01-01 12:00:00"
  /\ Date_toUTCString (mkDate (Some (-62167176000000)))
     = "Sat, 01 Jan 0000 12:00:00 GMT"
  /\ _getDateTimeInUTC (rt := example_runtime)
       (IsDate (mkDate (Some (-59028735538000))))
     = "1999-06-15 01:01:02"
  /\ Date_toUTCString (mkDate (Some (-59028735538000)))
     = "Mon, 15 Jun 0099 01:01:02 GMT".
Proof. repeat split; vm_compute; reflexivity. Qed.

(** On a host with daylight saving a [Date] whose UTC wall clock falls in
    the skipped local hour comes back an hour later: 02:30:00 UTC on
    2020-03-08 on New York time.  Twelve hours on it does not. *)
Example skipped_hour_is_displaced :
  _getDateTimeInUTC (rt := new_york_2020)
    (IsDate (mkDate (Some 1583634600000)))
  = "2020-03-08 03:30:00"
  /\ Date_toUTCString (mkDate (Some 1583634600000))
     = "Sun, 08 Mar 2020 02:30:00 GMT"
  /\ _getDateTimeInUTC (rt := new_york_2020)
       (IsDate (mkDate (Some (1583634600000 + 43200000))))
     = "2020-03-08 02:30:00".
Proof. repeat split; vm_compute; reflexivity. Qed.

(** With a year of five digits the cut takes the last digit of the
    seconds, and a year before 0 makes the text unreadable. *)
Example long_and_negative_years :
  _getDateTimeInUTC (rt := example_runtime)
    (IsDate (mkDate (Some 253402300859000)))
  = "10000-01-01 12:00:05"
  /\ Date_toUTCString (mkDate (Some 253402300859000))
     = "Sat, 01 Jan 10000 00:00:59 GMT"
  /\ _getDateTimeInUTC (rt := example_runtime)
       (IsDate (mkDate (Some (-62167219201000))))
     = "Invalid date".
Proof. repeat split; vm_compute; reflexivity. Qed.

(** *** The statements at concrete inputs *)

#[local] Existing Instance example_runtime.

Definition five : value (rt := example_runtime) :=
  VNumber (rt := example_runtime) 5.

(** The chain of the specification,
    [field ("priority").equals (1).and ().field ("state").notEquals (6)]. *)
Definition priority_and_state : list (method (rt := example_runtime)) :=
  [ Field "priority"; Equals (VNumber (rt := example_runtime) 1); And;
    Field "state"; NotEquals (VNumber (rt := example_runtime) 6) ].

Lemma build_empty_iff_nothing_appended_witness :
  fst (build (after priority_and_state constructor))
  = Return "priority=1^state!=6"
  /\ appended [Field "a"; Field "b"] constructor = [].
Proof.
  split.
  - apply (proj1 (proj2 (proj2
             (build_empty_iff_nothing_appended priority_and_state)))).
    vm_compute. discriminate.
  - apply (proj2 (proj2 (proj2
             (build_empty_iff_nothing_appended
                (rt := example_runtime) [Field "a"; Field "b"])))).
    reflexivity.
Defined.

Lemma equals_dispatch_witness :
  let this := {| query := []; currentField := "state" |} in
  equals five this = (Return tt, pushed this "state=5")
  /\ notEquals (VArray [five; VString "a"; VNull]) this
     = (Return tt, pushed this "stateNOT IN5,a,")
  /\ equals (VObject "[object Object]") this
     = (Throw (QueryTypeException
                 "Expected string or list type, found: object"), this).
Proof.
  intros this.
  assert (F : currentField this <> "") by discriminate.
  split; [|split].
  - apply (proj1 (proj1 (proj2 (proj1 (equals_dispatch this five) F))
                        5 eq_refl)).
  - apply (proj2 (proj2 (proj2 (proj1 (equals_dispatch this _) F))
                        [five; VString "a"; VNull] eq_refl)).
  - apply (proj1 (proj2 (equals_dispatch this (VObject "[object Object]"))
                        eq_refl eq_refl)).
Defined.

Lemma equals_before_field_counterexample :
  is_condition (rt := example_runtime) (Equals (VBoolean true)) = true
  /\ call (rt := example_runtime) (Equals (VBoolean true)) constructor
     = (Throw (QueryTypeException
                 "Expected string or list type, found: boolean"), constructor)
  /\ forall message,
       fst (call (rt := example_runtime) (Equals (VBoolean true)) constructor)
       <> Throw (QueryMissingFieldException message).
Proof. repeat split; discriminate. Qed.

Lemma condition_before_field_witness :
  let this := after (rt := example_runtime) [And; OrderAscending] constructor in
  call (StartsWith five) this
  = (Throw (QueryMissingFieldException "Conditions requires a field."), this)
  /\ exists message,
       call (GreaterThan (VBoolean true)) this
       = (Throw (QueryTypeException message), this).
Proof.
  split.
  - apply (proj1 (condition_before_field
                    [And; OrderAscending] (StartsWith five) eq_refl eq_refl)).
    reflexivity.
  - apply (proj2 (condition_before_field (rt := example_runtime)
                    [And; OrderAscending] (GreaterThan (VBoolean true))
                    eq_refl eq_refl)).
    reflexivity.
Defined.

Lemma startsWith_message_counterexample :
  let this := {| query := []; currentField := "name" |} in
  call (StartsWith five) this
  = (Throw (QueryTypeException "Invalid type passed. Expected: string"), this)
  /\ typeof five = "number"
  /\ Text.mentions (typeof five) "Invalid type passed. Expected: string" = false.
Proof. repeat split. Qed.

Lemma type_error_messages_witness :
  type_error_message (Equals (VBoolean (rt := example_runtime) true))
  = Some "Expected string or list type, found: boolean"
  /\ type_error_message (StartsWith five)
     = Some "Invalid type passed. Expected: string".
Proof.
  split.
  - apply (type_error_messages (rt := example_runtime) (Equals (VBoolean true))
             constructor _ eq_refl eq_refl eq_refl).
  - apply (type_error_messages (StartsWith five)
             {| query := []; currentField := "name" |} _
             eq_refl eq_refl eq_refl).
Defined.

Lemma isOneOf_after_empty_field_counterexample :
  let this := snd (field "" constructor) in
  is_condition (rt := example_runtime) (IsOneOf (VString "not-an-array")) = true
  /\ call (rt := example_runtime) (IsOneOf (VString "not-an-array")) this
     = (Throw (QueryTypeException "Expected array type, found: string"), this)
  /\ forall message,
       fst (call (rt := example_runtime) (IsOneOf (VString "not-an-array")) this)
       <> Throw (QueryMissingFieldException message).
Proof. repeat split; discriminate. Qed.

Lemma condition_after_empty_field_witness :
  let this := {| query := ["ORDERBYname"]; currentField := "name" |} in
  let this' := snd (field "" this) in
  call (Contains (VString (rt := example_runtime) "x")) this'
  = (Throw (QueryMissingFieldException "Conditions requires a field."), this')
  /\ exists message,
       call (Between five (VString "x")) this'
       = (Throw (QueryTypeException message), this').
Proof.
  intros this this'. split.
  - apply (proj1 (proj2 (condition_after_empty_field
                           this (Contains (VString "x")) eq_refl))).
    reflexivity.
  - apply (proj1 (proj2 (proj2 (condition_after_empty_field
                                  this (Between five (VString "x")) eq_refl)))).
    reflexivity.
Defined.

Lemma throw_leaves_builder_unchanged_witness :
  let this := {| query := ["ORDERBYname"]; currentField := "name" |} in
  snd (call (EndsWith five) this) = this
  /\ snd (build constructor) = constructor.
Proof.
  intros this. split.
  - apply (proj1 (throw_leaves_builder_unchanged this
                    (QueryTypeException "Invalid type passed. Expected: string"))
                 (EndsWith five)).
    reflexivity.
  - apply (proj2 (throw_leaves_builder_unchanged (rt := example_runtime)
                    constructor
                    (QueryEmptyException
                       "Atleast one condition is required in query."))).
    reflexivity.
Defined.

Lemma nullary_conditions_never_type_error_witness :
  let this := {| query := []; currentField := "name" |} in
  call (rt := example_runtime) IsEmpty this
  = (Return tt, pushed this "nameISEMPTY")
  /\ forall e, fst (call (rt := example_runtime) IsEmptyString constructor)
                = Throw e ->
                e = QueryMissingFieldException "Conditions requires a field.".
Proof.
  intros this. split.
  - pose proof (nullary_conditions_never_type_error
                  (rt := example_runtime) this) as A.
    apply Forall_inv in A. cbv beta iota in A.
    apply (proj2 (proj2 (proj2 (proj2 A)))). discriminate.
  - pose proof (nullary_conditions_never_type_error
                  (rt := example_runtime) constructor) as A.
    do 3 apply Forall_inv_tail in A. apply Forall_inv in A.
    cbv beta iota in A.
    apply (proj1 (proj2 (proj2 (proj2 A)))).
Defined.

End Facts.

(** ** Further properties of the builder *)

Module More.
Import Js QueryBuilder Statements Facts.

Section WithRuntime.
Context {rt : Runtime}.

Ltac unfold_simple_methods :=
  unfold startsWith, endsWith, contains, doesNotContain, isEmpty,
    isNotEmpty, isAnything, isEmptyString, greaterThan, greaterThanOrIs,
    lessThan, lessThanOrIs, and_, or_, NQ, _addLogicalOperator,
    orderAscending, orderDescending.

Ltac unfold_simple_methods_in H :=
  unfold startsWith, endsWith, contains, doesNotContain, isEmpty,
    isNotEmpty, isAnything, isEmptyString, greaterThan, greaterThanOrIs,
    lessThan, lessThanOrIs, and_, or_, NQ, _addLogicalOperator,
    orderAscending, orderDescending in H.

Ltac rewrite_runs :=
  rewrite ?equals_run, ?notEquals_run, ?isOneOf_run,
    ?_addComparisonCondition_run, ?between_run.

Lemma nonempty_append_l (a b : string) : a <> "" -> a ++ b <> "".
Proof. destruct a; simpl; [congruence | discriminate]. Qed.

Lemma call_step (m : method) (this : t) : step m this (call m this).
Proof.
  destruct (truthy (currentField this)) eqn:F.
  - assert (N : currentField this <> "") by (apply truthy_true; exact F).
    destruct m; cbn [call]; unfold_simple_methods; rewrite_runs;
      repeat first
        [ rewrite _addCondition_run, F
        | match goal with
          | |- step _ _ (if ?b then _ else _) => destruct b
          | |- step _ _ (match as_datelike ?v with _ => _ end) =>
              destruct (as_datelike v)
          | |- step _ _ (match between_operand ?a ?b with _ => _ end) =>
              destruct (between_operand a b)
          | |- step _ _ (match ?v with VArray _ => _ | _ => _ end) =>
              destruct v
          end ];
      try apply step_throw;
      try (apply step_condition; [reflexivity | exact N | discriminate]).
    + eapply step_field; reflexivity.
    + unfold bind, get_this, push; simpl.
      apply (step_marker _ this ("ORDERBYDESC" ++ currentField this));
        [reflexivity | reflexivity | discriminate].
    + unfold bind, get_this, push; simpl.
      apply (step_marker _ this ("ORDERBY" ++ currentField this));
        [reflexivity | reflexivity | discriminate].
    + apply (step_marker _ this "^"); [reflexivity | reflexivity | discriminate].
    + apply (step_marker _ this "^OR"); [reflexivity | reflexivity | discriminate].
    + apply (step_marker _ this "^NQ"); [reflexivity | reflexivity | discriminate].
  - destruct m; cbn [call]; unfold_simple_methods; rewrite_runs;
      repeat first
        [ rewrite _addCondition_run, F
        | match goal with
          | |- step _ _ (if ?b then _ else _) => destruct b
          | |- step _ _ (match as_datelike ?v with _ => _ end) =>
              destruct (as_datelike v)
          | |- step _ _ (match between_operand ?a ?b with _ => _ end) =>
              destruct (between_operand a b)
          | |- step _ _ (match ?v with VArray _ => _ | _ => _ end) =>
              destruct v
          end ];
      try apply step_throw.
    + eapply step_field; reflexivity.
    + unfold bind, get_this, push; simpl.
      apply (step_marker _ this ("ORDERBYDESC" ++ currentField this));
        [reflexivity | reflexivity | discriminate].
    + unfold bind, get_this, push; simpl.
      apply (step_marker _ this ("ORDERBY" ++ currentField this));
        [reflexivity | reflexivity | discriminate].
    + apply (step_marker _ this "^"); [reflexivity | reflexivity | discriminate].
    + apply (step_marker _ this "^OR"); [reflexivity | reflexivity | discriminate].
    + apply (step_marker _ this "^NQ"); [reflexivity | reflexivity | discriminate].
Qed.

(** When a call completes.  A call of [field], of an ordering method or of
    a logical operator always does, whatever the object holds; a condition
    call does exactly when the current field is a non-empty string and the
    operand passes every type test of the method. *)
Theorem call_succeeds_iff (m : method) (this : t) :
  succeeded m this
  = negb (is_condition m)
    || (truthy (currentField this) && operand_accepted m).
Proof.
  unfold succeeded, operand_accepted.
  destruct m; cbn [call is_condition negb orb passes_own_dispatch
                     validated_operand];
    unfold_simple_methods; rewrite_runs;
    try reflexivity;
    try destruct operand; try destruct data;
    try destruct startValue; try destruct endValue;
    cbn [as_datelike is_scalar Array_isArray typeof instanceof_Date
           instanceof_moment between_operand between_pair_supported
           String.eqb Ascii.eqb Bool.eqb orb andb];
    rewrite ?_addCondition_run;
    destruct (truthy (currentField this)); reflexivity.
Qed.

(** Each call that completes and is not [field] leaves exactly one more
    token; [field] and every call that throws leave none.  So the length of
    the token sequence after a history counts the completed calls other
    than [field]. *)
Theorem one_token_per_completed_call (ms : list method) (this : t) :
  List.length (query (after ms this))
  = (List.length (query this) + tokens_count ms this)%nat
  /\ (forall m,
        List.length (appended_by m this)
        = if succeeded m this && negb (is_field m) then 1%nat else 0%nat).
Proof.
  assert (A : forall m b,
             List.length (appended_by m b)
             = if succeeded m b && negb (is_field m) then 1%nat else 0%nat).
  { intros m b. unfold appended_by, succeeded.
    destruct (call_step m b) as [e|rest C N R|token C F N|name E]; simpl.
    - rewrite skipn_all. reflexivity.
    - rewrite skipn_app, skipn_all, Nat.sub_diag.
      destruct m; try discriminate C; reflexivity.
    - rewrite skipn_app, skipn_all, Nat.sub_diag, F. reflexivity.
    - subst m. rewrite skipn_all. reflexivity. }
  split; [|intros m; apply A].
  revert this. induction ms as [|m ms IH]; intros this; simpl.
  - lia.
  - rewrite IH, appended_by_spec, length_app, A. lia.
Qed.

Lemma chain_cons m rest this :
  chain (m :: rest) this =
  match call m this with
  | (Return _, this') => chain rest this'
  | (Throw e, this') => (Throw e, this')
  end.
Proof. reflexivity. Qed.

(** A fluent chain runs its calls in order on the one object and stops at
    the first that throws.  If it completes, the object is what the calls
    one by one leave.  If it throws, the calls before the one that threw all
    took effect and none after it did: the object is what that prefix
    leaves, and the exception is that of the call that threw. *)
Theorem chain_stops_at_first_throw (ms : list method) (this : t) :
  (forall this', chain ms this = (Return tt, this') -> this' = after ms this)
  /\ (forall e this',
        chain ms this = (Throw e, this') ->
        exists before m rest,
          ms = (before ++ m :: rest)%list
          /\ chain before this = (Return tt, this')
          /\ this' = after before this
          /\ call m this' = (Throw e, this')).
Proof.
  revert this. induction ms as [|m ms IH]; intros this.
  - split.
    + intros this' H. injection H as <-. reflexivity.
    + intros e this' H. discriminate H.
  - rewrite chain_cons. split.
    + intros this' H.
      destruct (call m this) as [[[]|e] b] eqn:E; [|discriminate H].
      simpl. rewrite E. simpl. apply (proj1 (IH b)). exact H.
    + intros e this' H.
      destruct (call m this) as [[[]|e0] b] eqn:E.
      * destruct (proj2 (IH b) e this' H) as (before & m' & rest & -> & C & A & T).
        exists (m :: before), m', rest. repeat split.
        -- rewrite chain_cons, E. exact C.
        -- simpl. rewrite E. exact A.
        -- exact T.
      * injection H as <- <-.
        assert (b = this) as ->.
        { pose proof (call_throw_same m this e0) as K.
          rewrite E in K. apply K. reflexivity. }
        exists [], m, ms. repeat split. exact E.
Qed.

Lemma call_keeps_field m this :
  is_field m = false -> currentField (snd (call m this)) = currentField this.
Proof.
  intros F. destruct (call_step m this) as [e|rest C N R|token C F' N|name E];
    try reflexivity.
  subst m. discriminate F.
Qed.

(** Only [field] changes the current field.  After [field (name)], through
    any history of other calls, completed or thrown, the current field is
    still [name], and a condition call that completes then pushes one token
    that begins with [name]. *)
Theorem field_persists (name : string) (ms : list method) (this : t) :
  forallb (fun m => negb (is_field m)) ms = true ->
  let this' := after ms (snd (field name this)) in
  currentField this' = name
  /\ (forall m, is_condition m = true -> succeeded m this' = true ->
                exists rest, appended_by m this' = [name ++ rest]).
Proof.
  intros N this'.
  assert (F : currentField this' = name).
  { unfold this'. rewrite after_without_field by exact N. reflexivity. }
  split; [exact F|].
  intros m C S. unfold succeeded in S. unfold appended_by.
  destruct (call_step m this') as [e|rest C' N' R|token C' F' N'|name' E].
  - discriminate S.
  - exists rest. simpl. rewrite skipn_app, skipn_all, Nat.sub_diag, F.
    reflexivity.
  - congruence.
  - subst m. discriminate C.
Qed.

(** No token is ever the empty string: on an object reached from the
    constructor by any history of calls every token is non-empty, and what
    [build] returns, when it returns, is a non-empty string. *)
Theorem tokens_never_empty (ms : list method) :
  Forall (fun token => token <> "") (query (after ms constructor))
  /\ (forall text,
        fst (build (after ms constructor)) = Return text -> text <> "").
Proof.
  assert (I : forall ms this,
             Forall (fun token => token <> "") (query this) ->
             Forall (fun token => token <> "") (query (after ms this))).
  { clear ms. induction ms as [|m ms IH]; intros this Q; [exact Q|].
    simpl. apply IH.
    destruct (call_step m this) as [e|rest C N R|token C F N|name E]; simpl;
      try exact Q.
    - apply Forall_app. split; [exact Q|]. constructor; [|constructor].
      apply nonempty_append_l. exact N.
    - apply Forall_app. split; [exact Q|]. constructor; [exact N|constructor]. }
  assert (Q := I ms constructor (Forall_nil _)).
  split; [exact Q|].
  intros text B. rewrite build_run in B.
  destruct (query (after ms constructor)) as [|x l]; [discriminate B|].
  injection B as <-. inversion Q as [|? ? X _]; subst.
  destruct l; [exact X|].
  change (Text.join "" (x :: s :: l)) with (x ++ "" ++ Text.join "" (s :: l)).
  apply nonempty_append_l. exact X.
Qed.


Lemma comparison_run m operator v this :
  comparison_of m = Some (operator, v) ->
  call m this = _addComparisonCondition v operator this.
Proof.
  destruct m; intros E; try discriminate E; injection E as <- <-; reflexivity.
Qed.

Lemma date_text (t : Z) :
  100 <= Calendar.year (Calendar.fields_at 0 t) <= 9999 ->
  wall_clock_in_place t ->
  _getDateTimeInUTC (IsDate (mkDate (Some t)))
  = datetime_text (Calendar.fields_at 0 t).
Proof.
  intros Y P.
  rewrite (_getDateTimeInUTC_Date (mkDate (Some t)) (conj Y P)).
  unfold spec_datetime_in_UTC, moment, Moment_utc, Moment_format.
  cbn [m_time m_offset].
  change (String.length "YYYY-MM-DD hh:mm:ss") with 19%nat.
  rewrite format_datetime_fields. reflexivity.
Qed.

Lemma moment_text (t offset : Z) :
  _getDateTimeInUTC (IsMoment {| m_time := Some t; m_offset := offset |})
  = datetime_text (Calendar.fields_at (offset * 60000) t).
Proof.
  unfold _getDateTimeInUTC, _formatDateTime, Moment_format.
  cbn [m_time m_offset].
  change (String.length "YYYY-MM-DD hh:mm:ss") with 19%nat.
  rewrite format_datetime_fields. reflexivity.
Qed.

(** The [Date] branch of the datetime helper, written out.  For a [Date]
    with a UTC year from 100 to 9999 whose UTC wall clock the host reads in
    place (every such [Date] on a host whose offset never changes; on a host
    with daylight saving, all but those whose UTC wall clock falls in a
    skipped local hour), it gives [YYYY-MM-DD hh:mm:ss] on the calendar
    fields of the instant in UTC, the hour in its 12-hour form.  For an
    invalid [Date] it gives [Invalid date]. *)
Theorem date_branch_reads_utc_fields (d : Date) :
  match d with
  | mkDate (Some t) =>
      100 <= Calendar.year (Calendar.fields_at 0 t) <= 9999 ->
      wall_clock_in_place t ->
      _getDateTimeInUTC (IsDate d) = datetime_text (Calendar.fields_at 0 t)
  | mkDate None => _getDateTimeInUTC (IsDate d) = "Invalid date"
  end.
Proof.
  destruct d as [[t|]]; [|reflexivity]. apply date_text.
Qed.

(** Twelve hours on, within one day, the calendar fields differ in the
    hour alone. *)
Lemma fields_at_half_day (offset t : Z) :
  let c := Calendar.fields_at offset t in
  Calendar.hours c < 12 ->
  Calendar.fields_at offset (t + 43200000)
  = {| Calendar.year := Calendar.year c; Calendar.month := Calendar.month c;
       Calendar.day := Calendar.day c; Calendar.hours := Calendar.hours c + 12;
       Calendar.minutes := Calendar.minutes c;
       Calendar.seconds := Calendar.seconds c;
       Calendar.weekday := Calendar.weekday c |}.
Proof.
  unfold Calendar.fields_at, Calendar.msPerDay.
  replace (t + 43200000 + offset) with (t + offset + 43200000) by lia.
  set (u := t + offset).
  set (days := u / 86400000). set (r := u mod 86400000).
  assert (R : 0 <= r < 86400000) by (apply Z.mod_pos_bound; lia).
  assert (T : u = 86400000 * days + r) by (apply Z.div_mod; lia).
  destruct (Calendar.civil_from_days days) as [[y m] d] eqn:E.
  cbn [Calendar.year Calendar.month Calendar.day Calendar.hours
         Calendar.minutes Calendar.seconds Calendar.weekday].
  intros H.
  assert (R' : r < 43200000).
  { pose proof (Z.div_mod r 3600000 ltac:(lia)).
    pose proof (Z.mod_pos_bound r 3600000 ltac:(lia)). lia. }
  assert (D : (u + 43200000) / 86400000 = days).
  { rewrite T. replace (86400000 * days + r + 43200000)
      with (r + 43200000 + days * 86400000) by lia.
    rewrite Z.div_add by lia. rewrite Z.div_small by lia. lia. }
  assert (M : (u + 43200000) mod 86400000 = r + 43200000).
  { rewrite T. replace (86400000 * days + r + 43200000)
      with (r + 43200000 + days * 86400000) by lia.
    rewrite Z.mod_add by lia. apply Z.mod_small. lia. }
  rewrite D, M, E.
  replace (r + 43200000) with (r + 12 * 3600000) at 1 by lia.
  rewrite Z.div_add by lia.
  replace (r + 43200000) with (r + 720 * 60000) at 1 by lia.
  rewrite Z.div_add by lia.
  replace (r + 43200000) with (r + 43200 * 1000) by lia.
  rewrite Z.div_add by lia.
  replace (r / 60000 + 720) with (r / 60000 + 12 * 60) by lia.
  replace (r / 1000 + 43200) with (r / 1000 + 720 * 60) by lia.
  rewrite !Z.mod_add by lia. reflexivity.
Qed.

Lemma datetime_text_half_day (offset t : Z) :
  Calendar.hours (Calendar.fields_at offset t) < 12 ->
  datetime_text (Calendar.fields_at offset (t + 43200000))
  = datetime_text (Calendar.fields_at offset t).
Proof.
  intros H. rewrite (fields_at_half_day offset t H). unfold datetime_text.
  cbn [Calendar.year Calendar.month Calendar.day Calendar.hours
         Calendar.minutes Calendar.seconds].
  replace ((Calendar.hours (Calendar.fields_at offset t) + 12) mod 12)
    with (Calendar.hours (Calendar.fields_at offset t) mod 12).
  - reflexivity.
  - replace (Calendar.hours (Calendar.fields_at offset t) + 12)
      with (Calendar.hours (Calendar.fields_at offset t) + 1 * 12) by lia.
    rewrite Z.mod_add by lia. reflexivity.
Qed.

(** The pattern's hour is the 12-hour one and no AM/PM follows it, so two
    instants twelve hours apart can give one text.  A moment whose wall
    clock at its own offset is in the morning and the moment twelve hours
    later at the same offset always do.  So do a [Date] in the morning half
    of a UTC day and the [Date] twelve hours later, when the year is from
    100 to 9999 and the host reads both UTC wall clocks in place. *)
Theorem morning_and_afternoon_collide (t : Z) :
  (forall offset,
     Calendar.hours (Calendar.fields_at (offset * 60000) t) < 12 ->
     _getDateTimeInUTC (IsMoment {| m_time := Some t; m_offset := offset |})
     = _getDateTimeInUTC
         (IsMoment {| m_time := Some (t + 43200000); m_offset := offset |}))
  /\ (100 <= Calendar.year (Calendar.fields_at 0 t) <= 9999 ->
      Calendar.hours (Calendar.fields_at 0 t) < 12 ->
      wall_clock_in_place t -> wall_clock_in_place (t + 43200000) ->
      _getDateTimeInUTC (IsDate (mkDate (Some t)))
      = _getDateTimeInUTC (IsDate (mkDate (Some (t + 43200000))))).
Proof.
  split.
  - intros offset H. rewrite !moment_text.
    symmetry. apply datetime_text_half_day. exact H.
  - intros Y H P P'.
    rewrite (date_text t Y P).
    rewrite (date_text (t + 43200000)).
    + symmetry. apply datetime_text_half_day. exact H.
    + rewrite (fields_at_half_day 0 t H). exact Y.
    + exact P'.
Qed.


(** The four comparison methods, with a current field set: a number or a
    string is pushed as it converts to text; a [Date] with a UTC year from
    100 to 9999 whose UTC wall clock the host reads in place is pushed as
    its UTC datetime, the hour in 12-hour form; an invalid [Date] as
    [Invalid date]; a moment as it formats at its own offset.  Any other
    operand is turned down, with or without a current field, by a type
    exception that names its [typeof]. *)
Theorem comparison_cases (m : method) (operator : string) (v : value)
        (this : t) :
  comparison_of m = Some (operator, v) ->
  (currentField this <> "" ->
   match v with
   | VNumber n =>
       call m this
       = (Return tt,
          pushed this (currentField this ++ operator ++ NumberToString n))
   | VString s =>
       call m this
       = (Return tt, pushed this (currentField this ++ operator ++ s))
   | VDate (mkDate (Some time)) =>
       100 <= Calendar.year (Calendar.fields_at 0 time) <= 9999 ->
       wall_clock_in_place time ->
       call m this
       = (Return tt,
          pushed this (currentField this ++ operator
                         ++ datetime_text (Calendar.fields_at 0 time)))
   | VDate (mkDate None) =>
       call m this
       = (Return tt, pushed this (currentField this ++ operator ++ "Invalid date"))
   | VMoment mo =>
       call m this
       = (Return tt,
          pushed this (currentField this ++ operator
                         ++ Moment_format mo "YYYY-MM-DD hh:mm:ss"))
   | _ => True
   end)
  /\ (instanceof_Date v || instanceof_moment v || is_scalar v = false ->
      call m this
      = (Throw (QueryTypeException
                  ("Expected string/Date/number type, found: " ++ typeof v)),
         this)).
Proof.
  intros E. rewrite (comparison_run m operator v this E).
  rewrite _addComparisonCondition_run. split.
  - intros F. apply truthy_true in F.
    destruct v as [| | | | | |[[time|]]| | |]; try exact I;
      cbn [as_datelike is_scalar typeof String.eqb Ascii.eqb Bool.eqb orb];
      try intros Y P; rewrite _addCondition_run, F; cbn [ToString];
      try reflexivity.
    + rewrite (date_text time Y P). reflexivity.
  - intros U. destruct v; try discriminate U; reflexivity.
Qed.

(** The type exceptions a call can throw carry one of five messages.  In
    particular the message of [_addCondition] for a list of several allowed
    types, [Invalid type passed. Expected one of: ...], is never seen: the
    only calls whose type test fails inside [_addCondition] are those of
    the four string methods, which allow one type. *)
Theorem type_error_is_never_one_of (m : method) (this : t) (message : string) :
  fst (call m this) = Throw (QueryTypeException message) ->
  (message = "Invalid type passed. Expected: string"
   \/ message = "Expected string/date/number type, found: undefined"
   \/ exists v,
        message = "Expected string or list type, found: " ++ typeof v
        \/ message = "Expected array type, found: " ++ typeof v
        \/ message = "Expected string/Date/number type, found: " ++ typeof v)
  /\ String.prefix "Invalid type passed. Expected one of" message = false.
Proof.
  intros H.
  assert (A : message = "Invalid type passed. Expected: string"
              \/ message = "Expected string/date/number type, found: undefined"
              \/ exists v,
                   message = "Expected string or list type, found: " ++ typeof v
                   \/ message = "Expected array type, found: " ++ typeof v
                   \/ message
                      = "Expected string/Date/number type, found: " ++ typeof v).
  { destruct m; cbn [call] in H; unfold_simple_methods_in H;
      rewrite ?equals_run, ?notEquals_run, ?isOneOf_run,
        ?_addComparisonCondition_run, ?between_run in H;
      try discriminate H;
      try (destruct (between_operand startValue endValue));
      try destruct operand; try destruct data;
      cbn [as_datelike is_scalar Array_isArray typeof String.eqb Ascii.eqb
             Bool.eqb orb andb] in H;
      rewrite ?_addCondition_run in H;
      try (destruct (truthy (currentField this)));
      cbn in H; try discriminate H.
    all: injection H as <-.
    all: first
           [ left; reflexivity
           | right; left; reflexivity
           | right; right;
             let found v :=
               exists v;
               first [ left; reflexivity
                     | right; left; reflexivity
                     | right; right; reflexivity ] in
             first [ found (@VUndefined rt) | found (@VNull rt)
                   | found (@VBoolean rt true) | found (@VString rt "")
                   | found (@VFunction rt "")
                   | match goal with n : number |- _ => found (VNumber n) end ] ]. }
  split; [exact A|].
  destruct A as [ -> | [ -> | [v [ -> | [ -> | -> ] ] ] ] ]; reflexivity.
Qed.

(** [between] turns down every pair that is not two numbers, two strings or
    two date-like values before it looks at the current field, and the
    message is the same for all of them: it ends in [undefined] whatever
    the types of the operands are. *)
Theorem between_rejection_hides_types (startValue endValue : value)
        (this : t) :
  between_pair_supported startValue endValue = false ->
  call (Between startValue endValue) this
  = (Throw (QueryTypeException
              "Expected string/date/number type, found: undefined"), this)
  /\ succeeded (Between startValue endValue) this = false.
Proof.
  intros U.
  assert (B : between startValue endValue this
              = (Throw (QueryTypeException
                          "Expected string/date/number type, found: undefined"),
                 this)).
  { rewrite between_run.
    pose proof (between_operand_supported startValue endValue) as D.
    destruct (between_operand startValue endValue); [congruence|reflexivity]. }
  split; [exact B|]. unfold succeeded. cbn [call]. rewrite B. reflexivity.
Qed.

End WithRuntime.

(** *** The statements at concrete inputs *)

#[local] Existing Instance example_runtime.

(** [field ("a").equals (5).startsWith (5).and ()]: the third call throws. *)
Definition broken_chain : list (method (rt := example_runtime)) :=
  [Field "a"; Equals five; StartsWith five; And].

Definition ten_o_clock : Z := 1577872800000.

Lemma chain_stops_at_first_throw_witness :
  let this' := {| query := ["a=5"]; currentField := "a" |} in
  (exists before m rest,
     broken_chain = (before ++ m :: rest)%list
     /\ chain before constructor = (Return tt, this')
     /\ this' = after before constructor
     /\ call m this'
        = (Throw (QueryTypeException "Invalid type passed. Expected: string"),
           this'))
  /\ {| query := ["a=5"; "^"]; currentField := "a" |}
     = after [Field "a"; Equals five; And] constructor.
Proof.
  intros this'. split.
  - apply (proj2 (chain_stops_at_first_throw broken_chain constructor)).
    reflexivity.
  - apply (proj1 (chain_stops_at_first_throw
                    [Field "a"; Equals five; And] constructor)).
    reflexivity.
Defined.

Lemma field_persists_witness :
  let this' := after [And; StartsWith five; OrderAscending]
                     (snd (field "state" constructor)) in
  currentField this' = "state"
  /\ (forall m, is_condition m = true -> succeeded m this' = true ->
                exists rest, appended_by m this' = ["state" ++ rest]).
Proof.
  exact (field_persists "state" [And; StartsWith five; OrderAscending]
                        constructor eq_refl).
Defined.

Lemma tokens_never_empty_witness : "priority=1^state!=6" <> "".
Proof.
  apply (proj2 (tokens_never_empty priority_and_state)). reflexivity.
Defined.


Lemma date_branch_reads_utc_fields_witness :
  _getDateTimeInUTC (IsDate (mkDate (Some ten_o_clock)))
  = datetime_text (Calendar.fields_at 0 ten_o_clock).
Proof.
  apply (date_branch_reads_utc_fields (mkDate (Some ten_o_clock))).
  - vm_compute. split; discriminate.
  - reflexivity.
Defined.

Lemma comparison_cases_witness :
  let this := {| query := []; currentField := "opened_at" |} in
  call (GreaterThan (VDate (mkDate (Some ten_o_clock)))) this
  = (Return tt,
     pushed this ("opened_at" ++ ">"
                    ++ datetime_text (Calendar.fields_at 0 ten_o_clock)))
  /\ call (LessThanOrIs (VBoolean true)) this
     = (Throw (QueryTypeException
                 "Expected string/Date/number type, found: boolean"), this).
Proof.
  intros this. split.
  - apply (proj1 (comparison_cases
                    (GreaterThan (VDate (mkDate (Some ten_o_clock)))) ">"
                    (VDate (mkDate (Some ten_o_clock))) this eq_refl)).
    + discriminate.
    + vm_compute. split; discriminate.
    + reflexivity.
  - apply (proj2 (comparison_cases (LessThanOrIs (VBoolean true)) "<="
                    (VBoolean true) this eq_refl)).
    reflexivity.
Defined.

Lemma type_error_is_never_one_of_witness :
  String.prefix "Invalid type passed. Expected one of"
                "Invalid type passed. Expected: string" = false.
Proof.
  apply (proj2 (type_error_is_never_one_of
                  (Contains five) {| query := []; currentField := "name" |}
                  "Invalid type passed. Expected: string" eq_refl)).
Defined.

Lemma between_rejection_hides_types_witness :
  call (Between five (VString "x")) constructor
  = (Throw (QueryTypeException
              "Expected string/date/number type, found: undefined"),
     constructor)
  /\ succeeded (Between five (VString "x")) constructor = false.
Proof.
  exact (between_rejection_hides_types five (VString "x") constructor eq_refl).
Defined.

Lemma morning_and_afternoon_collide_witness :
  _getDateTimeInUTC (IsDate (mkDate (Some ten_o_clock)))
  = _getDateTimeInUTC (IsDate (mkDate (Some (ten_o_clock + 43200000))))
  /\ _getDateTimeInUTC
       (IsMoment {| m_time := Some ten_o_clock; m_offset := 60 |})
     = _getDateTimeInUTC
         (IsMoment {| m_time := Some (ten_o_clock + 43200000);
                      m_offset := 60 |}).
Proof.
  split.
  - apply (proj2 (morning_and_afternoon_collide ten_o_clock)).
    + vm_compute. split; discriminate.
    + vm_compute. reflexivity.
    + reflexivity.
    + reflexivity.
  - apply (proj1 (morning_and_afternoon_collide ten_o_clock) 60).
    vm_compute. reflexivity.
Defined.

End More.
